(** * Fraud-scoring engine of the financial-analytics dashboard

    A shallow embedding of [app/utils/fraud.py]: the safe division [_div],
    the ratio engine [_ratios], the two rule scorers [beneish_score] and
    [piotroski_score], the statement fetch [_two_years] and the dispatcher
    [predict], followed by the properties the specification states about
    them.

    Python's [float] and numpy's [float64] are IEEE 754 binary64 numbers;
    they are modelled by Rocq's primitive binary64 floats, so every
    definition below can be evaluated on concrete statements.  Exceptions
    are values of an error monad. *)

From Stdlib Require Import PrimFloat ZArith String.
From Stdlib Require Import Sorted.
From stdpp Require Import gmap strings list fin_maps.

Set Warnings "-inexact-float".
Local Open Scope Z_scope.

(** ** Python values, exceptions and float primitives *)

Module Py.

(** The exceptions this module can raise. *)
Inductive exn : Type :=
| ZeroDivisionError
| IndexError
| ValueError (msg : string).

(** Outcome of evaluating a Python expression. *)
Inductive result (A : Type) : Type :=
| Ok (a : A)
| Raise (e : exn).
Global Arguments Ok {A} a.
Global Arguments Raise {A} e.

(** Sequencing: an exception aborts what follows.  With these instances
    [x ← e; k] reads "evaluate [e], name its value [x], go on with [k]". *)
Global Instance result_ret : MRet result := fun A a => Ok a.
Global Instance result_bind : MBind result := fun A B k m =>
  match m with
  | Ok a => k a
  | Raise e => Raise e
  end.

(** [try: body  except: handler] with a bare [except]. *)
Definition try_except {A} (body : result A) (handler : A) : A :=
  match body with
  | Ok a => a
  | Raise _ => handler
  end.

(** A parameter with a default value: a call that omits the argument
    passes [None] and the callee takes the default. *)
Definition arg_default {A} (dflt : A) (a : option A) : A :=
  match a with
  | Some x => x
  | None => dflt
  end.

(** [x / y] on two Python floats: [float.__truediv__] raises when the
    divisor compares equal to zero and is the IEEE quotient otherwise
    (overflow and NaN propagate silently). *)
Definition truediv (x y : float) : result float :=
  if (y =? 0)%float then Raise ZeroDivisionError else Ok (x / y)%float.

(** [x > y] on floats. *)
Definition gt (x y : float) : bool := (y <? x)%float.

(** [np.isnan]. *)
Definition isnan (x : float) : bool := PrimFloat.is_nan x.

(** Values stored in the result dictionaries. *)
Inductive value : Type :=
| VFloat (f : float)
| VInt (z : Z)
| VBool (b : bool).

End Py.
Import Py.

Infix "/!" := Py.truediv (at level 40, left associativity).

(** ** Safe division *)

(** [_div(n, d, fallback=0.0)]. *)
Definition _div (n d : float) (fallback : option float) : float :=
  let fallback := arg_default 0%float fallback in
  try_except
    (if (d =? 0)%float || isnan d then Ok fallback
     else n /! d)
    fallback.

(** ** Feature vector *)

(** The one-row frame [_ratios] builds, with the column names of the
    source.  [feats.iloc[0]] reads the same record. *)
Record FeatureVector : Type := {
  DSRI : float;
  GMI : float;
  AQI : float;
  SGI : float;
  DEPI : float;
  SGAI : float;
  LVGI : float;
  TATA : float;
  leverage : float;
  profitability : float;
  liquidity : float;
  EBIT_to_assets : float;
  soft_asset_ratio : float;
  ROA : float;
  Prev_ROA : float;
  CFO : float;
  GrossMargin : float;
  Prev_GM : float;
  AssetTurn : float;
  Prev_AT : float;
  CurrRatio : float;
  Prev_CR : float;
  Shares : float;
  Prev_Shares : float;
  Prev_leverage : float
}.

(** The fields in column order. *)
Definition fields (r : FeatureVector) : list float :=
  [ DSRI r; GMI r; AQI r; SGI r; DEPI r; SGAI r; LVGI r; TATA r;
    leverage r; profitability r; liquidity r; EBIT_to_assets r;
    soft_asset_ratio r;
    ROA r; Prev_ROA r; CFO r; GrossMargin r; Prev_GM r; AssetTurn r;
    Prev_AT r; CurrRatio r; Prev_CR r; Shares r; Prev_Shares r;
    Prev_leverage r ].

(** ** Statement rows and frames *)

(** One row of a statement frame: the fiscal-year date it is sorted by
    ([None] is pandas' missing marker) and the numeric line items by
    column name.  The other text columns of the provider's records
    (symbol, currency, links) are never read and are left out. *)
Record Row : Type := {
  date : option string;
  items : gmap string float
}.

(** A frame is the list of its rows in index order. *)
Abbreviation DataFrame := (list Row).

(** [df.iloc[-k]] for [k >= 1]. *)
Definition iloc_neg (k : nat) (df : DataFrame) : result Row :=
  if decide (k ≤ length df)%nat then
    match df !! (length df - k)%nat with
    | Some r => Ok r
    | None => Raise IndexError
    end
  else Raise IndexError.

(** ** Ratio engine *)

(** [g = lambda row, k: float(row.get(k, 0))]. *)
Definition g (row : Row) (k : string) : float :=
  default 0%float (items row !! k).

(** [k in row]. *)
Definition contains (row : Row) (k : string) : bool :=
  bool_decide (is_Some (items row !! k)).

Definition _ratios (df2 : DataFrame) : result FeatureVector :=
  c ← iloc_neg 1 df2;
  p ← iloc_neg 2 df2;
  let rectC := g c "netReceivables" in
  let rectP := g p "netReceivables" in
  let saleC := g c "revenue" in
  let saleP := g p "revenue" in
  let cogsC := g c "costOfRevenue" in
  let cogsP := g p "costOfRevenue" in
  let actC := g c "totalCurrentAssets" in
  let actP := g p "totalCurrentAssets" in
  let ppeC := g c "propertyPlantEquipmentNet" in
  let ppeP := g p "propertyPlantEquipmentNet" in
  let atC := g c "totalAssets" in
  let atP := g p "totalAssets" in
  let dpC := g c "depreciationAndAmortization" in
  let dpP := g p "depreciationAndAmortization" in
  let niC := g c "netIncome" in
  let niP := g p "netIncome" in
  let ltC := g c "totalLiabilities" in
  let ltP := g p "totalLiabilities" in
  let lctC := g c "totalCurrentLiabilities" in
  let ebitC := if contains c "ebit" then g c "ebit" else niC in
  (* "DSRI" *)
  a1 ← rectC /! saleC;
  b1 ← rectP /! saleP;
  let dsri := _div a1 b1 None in
  (* "GMI" *)
  a2 ← (saleP - cogsP)%float /! saleP;
  b2 ← (saleC - cogsC)%float /! saleC;
  let gmi := _div a2 b2 None in
  (* "AQI" *)
  a3 ← (actC + ppeC)%float /! atC;
  b3 ← (actP + ppeP)%float /! atP;
  let aqi := _div (1 - a3)%float (1 - b3)%float None in
  (* "SGI" *)
  let sgi := _div saleC saleP None in
  (* "DEPI" *)
  a5 ← dpP /! (dpP + ppeP)%float;
  b5 ← dpC /! (dpC + ppeC)%float;
  let depi := _div a5 b5 None in
  (* "SGAI" *)
  a6 ← (saleC - cogsC - niC)%float /! saleC;
  b6 ← (saleP - cogsP - niP)%float /! saleP;
  let sgai := _div a6 b6 None in
  (* "LVGI" *)
  a7 ← ltC /! atC;
  b7 ← ltP /! atP;
  let lvgi := _div a7 b7 None in
  mret {|
    DSRI := dsri;
    GMI := gmi;
    AQI := aqi;
    SGI := sgi;
    DEPI := depi;
    SGAI := sgai;
    LVGI := lvgi;
    TATA := _div (actC - lctC - dpC)%float atC None;
    leverage := _div ltC atC None;
    profitability := _div niC atC None;
    liquidity := _div actC lctC None;
    EBIT_to_assets := _div ebitC atC None;
    soft_asset_ratio := _div (actC - ppeC)%float atC None;
    ROA := _div niC atC None;
    Prev_ROA := _div niP atP None;
    CFO := _div (g c "operatingCashFlow") atC None;
    GrossMargin := _div (saleC - cogsC)%float saleC None;
    Prev_GM := _div (saleP - cogsP)%float saleP None;
    AssetTurn := _div saleC atC None;
    Prev_AT := _div saleP atP None;
    CurrRatio := _div actC lctC None;
    Prev_CR := _div actP (g p "totalCurrentLiabilities") None;
    Shares := g c "weightedAverageShsOut";
    Prev_Shares := g p "weightedAverageShsOut";
    Prev_leverage := _div ltP atP None
  |}.

(** ** Rule scorers *)

Definition beneish_score (r : FeatureVector) : float * bool :=
  let m :=
    (-4.84
     + 0.92 * DSRI r
     + 0.528 * GMI r
     + 0.404 * AQI r
     + 0.892 * SGI r
     + 0.115 * DEPI r
     - 0.172 * SGAI r
     + 4.679 * TATA r)%float in
  let flag := gt m (-2.22)%float in
  (m, flag).

Definition piotroski_score (r : FeatureVector) : Z * bool :=
  let roa_cur := ROA r in
  let roa_prev := Prev_ROA r in
  let cfo := CFO r in
  let accrual := gt cfo roa_cur in
  let gm_cur := GrossMargin r in
  let gm_prev := Prev_GM r in
  let at_cur := AssetTurn r in
  let at_prev := Prev_AT r in
  let lev_cur := leverage r in
  let lev_prev := Prev_leverage r in
  let cr_cur := CurrRatio r in
  let cr_prev := Prev_CR r in
  let share_change := (Shares r <=? Prev_Shares r)%float in
  let score := 0 in
  let score := score + Z.b2z (gt roa_cur 0%float) in
  let score := score + Z.b2z (gt cfo 0%float) in
  let score := score + Z.b2z (gt (roa_cur - roa_prev)%float 0%float) in
  let score := score + Z.b2z accrual in
  let score := score + Z.b2z (lev_cur <? lev_prev)%float in
  let score := score + Z.b2z (gt cr_cur cr_prev) in
  let score := score + Z.b2z (gt (gm_cur - gm_prev)%float 0%float) in
  let score := score + Z.b2z (gt (at_cur - at_prev)%float 0%float) in
  let score := score + Z.b2z share_change in
  let flag := score <=? 3 in
  (score, flag).

(** ** Statement fetch *)

(** Columns of a frame: every name that occurs in one of its rows. *)
Definition columns (df : DataFrame) : gset string :=
  ⋃ ((fun r => dom (items r)) <$> df).

(** [pd.DataFrame(records)]: each record becomes a row over all the
    columns, a key it lacks holding NaN. *)
Definition pd_DataFrame (records : list Row) : DataFrame :=
  let cols := columns records in
  (fun r => {| date := date r;
               items := items r ∪ gset_to_gmap nan cols |}) <$> records.

(** Row of missing values over the given columns. *)
Definition nan_row (cols : gset string) : Row :=
  {| date := None; items := gset_to_gmap nan cols |}.

(** Align a frame on the index [0 .. n-1]. *)
Definition reindex (n : nat) (df : DataFrame) : DataFrame :=
  (fun i => default (nan_row (columns df)) (df !! i)) <$> seq 0 n.

(** Two aligned rows side by side; of two columns with one name the
    left one is kept, and so is the left date column. *)
Definition join_row (a b : Row) : Row :=
  {| date := date a; items := items a ∪ items b |}.

(** [pd.concat(frames, axis=1)] followed by
    [df.loc[:, ~df.columns.duplicated()]]: the frames are aligned on the
    union of their indices and set side by side, and a duplicated column
    name keeps its first occurrence. *)
Definition concat_axis1 (frames : list DataFrame) : DataFrame :=
  let n := max_list (length <$> frames) in
  foldr (fun df acc => zip_with join_row (reindex n df) acc)
        (replicate n (nan_row ∅)) frames.

(** Order of the [date] column: ascending, missing dates last. *)
Definition date_le (a b : option string) : bool :=
  match a, b with
  | Some x, Some y => String.leb x y
  | Some _, None => true
  | None, Some _ => false
  | None, None => true
  end.

Fixpoint insert_by_date (r : Row) (df : DataFrame) : DataFrame :=
  match df with
  | [] => [r]
  | x :: df' =>
      if date_le (date r) (date x) then r :: df
      else x :: insert_by_date r df'
  end.

(** [df.sort_values("date")]. *)
Definition sort_values_date (df : DataFrame) : DataFrame :=
  foldr insert_by_date [] df.

(** [df.fillna(0)].  The date column is not read after the sort, so a
    missing date is left as it is. *)
Definition fillna0 (df : DataFrame) : DataFrame :=
  (fun r => {| date := date r;
               items := (fun x => if isnan x then 0%float else x) <$> items r |})
  <$> df.

(** [df.tail(k)]. *)
Definition tail (k : nat) (df : DataFrame) : DataFrame :=
  drop (length df - k)%nat df.

(** ** Dispatcher *)

(** The result dictionary of [predict]. *)
Record ScoreResult (shap_values : Type) : Type := {
  prob : option float;
  shap : option shap_values;
  feats : FeatureVector;
  extra : option (gmap string value)
}.
Arguments prob {shap_values} _.
Arguments shap {shap_values} _.
Arguments feats {shap_values} _.
Arguments extra {shap_values} _.

Section Dispatcher.

(** The statement provider: the decoded JSON lists of the income
    statement, balance sheet and cash-flow statement endpoints for a
    ticker, each with at most two records ([limit=2]).  It is a function
    of the ticker, so the [lru_cache] around [_two_years] is not
    observable and is left out. *)
Variable fetch : string -> list Row * list Row * list Row.

(** The pretrained classifier: the class-1 probability
    [CB_MODEL.predict_proba(feats)[0, 1]] and the explanation
    [shap.TreeExplainer(CB_MODEL)(feats, check_additivity=False)]. *)
Variable shap_values : Type.
Variable predict_proba : FeatureVector -> float.
Variable TreeExplainer : FeatureVector -> shap_values.

Definition _two_years (tkr : string) : option DataFrame :=
  let '(inc, bal, cf) := fetch tkr in
  if bool_decide (inc = []) || bool_decide (bal = []) || bool_decide (cf = [])
  then None
  else
    let df := concat_axis1 [pd_DataFrame inc; pd_DataFrame bal; pd_DataFrame cf] in
    let df := fillna0 (sort_values_date df) in
    if decide (2 ≤ length df)%nat then Some (tail 2 df) else None.

(** The body of [predict(tkr, method="CatBoost")].  Python looks the
    module-level name [_ratios] up when the call is made; [ratio_engine]
    stands for what that name is bound to, so that a property can speak
    about whether the engine is called at all. *)
Definition predict_with (ratio_engine : DataFrame -> result FeatureVector)
    (tkr : string) (method : option string)
  : result (option (ScoreResult shap_values)) :=
  let method := arg_default "CatBoost"%string method in
  let df2 := _two_years tkr in
  match df2 with
  | None => Ok None
  | Some df2 =>
      feats ← ratio_engine df2;
      let r := feats in
      if String.eqb method "CatBoost" then
        let prob := predict_proba feats in
        let shap_vals := TreeExplainer feats in
        Ok (Some {| prob := Some prob; shap := Some shap_vals;
                    feats := feats; extra := None |})
      else if String.eqb method "Beneish M-Score" then
        let '(m, flag) := beneish_score r in
        Ok (Some {| prob := None; shap := None; feats := feats;
                    extra := Some (<["M-Score" := VFloat m]>
                                   {["flag" := VBool flag]}) |})
      else if String.eqb method "Piotroski F-Score" then
        let '(fscore, flag) := piotroski_score r in
        Ok (Some {| prob := None; shap := None; feats := feats;
                    extra := Some (<["F-Score" := VInt fscore]>
                                   {["flag" := VBool flag]}) |})
      else Raise (ValueError "Unknown method")
  end.

(** [predict] as the module defines it: the engine is [_ratios]. *)
Definition predict : string -> option string ->
    result (option (ScoreResult shap_values)) :=
  predict_with _ratios.

(** The three result dictionaries. *)
Definition classifier_result (fv : FeatureVector) : ScoreResult shap_values :=
  {| prob := Some (predict_proba fv); shap := Some (TreeExplainer fv);
     feats := fv; extra := None |}.

Definition beneish_result (fv : FeatureVector) : ScoreResult shap_values :=
  {| prob := None; shap := None; feats := fv;
     extra := Some (<["M-Score"%string := VFloat (fst (beneish_score fv))]>
                    {["flag"%string := VBool (snd (beneish_score fv))]}) |}.

Definition piotroski_result (fv : FeatureVector) : ScoreResult shap_values :=
  {| prob := None; shap := None; feats := fv;
     extra := Some (<["F-Score"%string := VInt (fst (piotroski_score fv))]>
                    {["flag"%string := VBool (snd (piotroski_score fv))]}) |}.

End Dispatcher.

(** ** Words of the specification *)

(** The M-Score as the specification writes it, summed left to right. *)
Definition m_score_formula (dsri gmi aqi sgi depi sgai tata : float) : float :=
  (-4.84 + 0.92 * dsri + 0.528 * gmi + 0.404 * aqi + 0.892 * sgi
   + 0.115 * depi - 0.172 * sgai + 4.679 * tata)%float.

(** The feature vector with every field zero. *)
Definition zero_features : FeatureVector :=
  {| DSRI := 0; GMI := 0; AQI := 0; SGI := 0; DEPI := 0; SGAI := 0;
     LVGI := 0; TATA := 0; leverage := 0; profitability := 0;
     liquidity := 0; EBIT_to_assets := 0; soft_asset_ratio := 0;
     ROA := 0; Prev_ROA := 0; CFO := 0; GrossMargin := 0; Prev_GM := 0;
     AssetTurn := 0; Prev_AT := 0; CurrRatio := 0; Prev_CR := 0;
     Shares := 0; Prev_Shares := 0; Prev_leverage := 0 |}.

(** The nine binary tests of the F-Score, numbered as in the
    specification. *)
Definition piotroski_tests (r : FeatureVector) : list bool :=
  [ (0 <? ROA r)%float;
    (0 <? CFO r)%float;
    (0 <? ROA r - Prev_ROA r)%float;
    (ROA r <? CFO r)%float;
    (leverage r <? Prev_leverage r)%float;
    (Prev_CR r <? CurrRatio r)%float;
    (0 <? GrossMargin r - Prev_GM r)%float;
    (0 <? AssetTurn r - Prev_AT r)%float;
    (Shares r <=? Prev_Shares r)%float ].

(** Number of tests that hold. *)
Definition count_true (tests : list bool) : Z :=
  Z.of_nat (length (filter (fun b => b = true) tests)).

(** Single-period ratios named by the specification's table. *)
Definition receivables_to_sales (row : Row) : float :=
  (g row "netReceivables" / g row "revenue")%float.

Definition gross_margin_ratio (row : Row) : float :=
  ((g row "revenue" - g row "costOfRevenue") / g row "revenue")%float.

Definition asset_quality (row : Row) : float :=
  (1 - (g row "totalCurrentAssets" + g row "propertyPlantEquipmentNet")
       / g row "totalAssets")%float.

Definition depreciation_rate (row : Row) : float :=
  (g row "depreciationAndAmortization"
   / (g row "depreciationAndAmortization"
      + g row "propertyPlantEquipmentNet"))%float.

Definition sga_ratio (row : Row) : float :=
  ((g row "revenue" - g row "costOfRevenue" - g row "netIncome")
   / g row "revenue")%float.

Definition liabilities_to_assets (row : Row) : float :=
  (g row "totalLiabilities" / g row "totalAssets")%float.

(** The six quantities [_ratios] divides by outside [_div]. *)
Definition raw_denominators (p c : Row) : list float :=
  [ g c "revenue"; g p "revenue"; g c "totalAssets"; g p "totalAssets";
    (g p "depreciationAndAmortization" + g p "propertyPlantEquipmentNet")%float;
    (g c "depreciationAndAmortization" + g c "propertyPlantEquipmentNet")%float ].

Definition is_zero_denominator (d : float) : bool := (d =? 0)%float.

(** ** The scenario of the specification and a provider for it *)

(** The concrete scenario of the specification.  The dates only fix the
    chronological order of the two fiscal years. *)
Definition scenario_current : Row :=
  {| date := Some "2023-12-31"%string;
     items := list_to_map
       [ ("revenue", 1000); ("costOfRevenue", 600); ("netReceivables", 100);
         ("totalCurrentAssets", 300); ("propertyPlantEquipmentNet", 200);
         ("totalAssets", 800); ("depreciationAndAmortization", 50);
         ("netIncome", 120); ("totalLiabilities", 400);
         ("totalCurrentLiabilities", 150); ("operatingCashFlow", 140);
         ("weightedAverageShsOut", 1000) ]%string%float |}.

Definition scenario_prior : Row :=
  {| date := Some "2022-12-31"%string;
     items := list_to_map
       [ ("revenue", 900); ("costOfRevenue", 550); ("netReceivables", 80);
         ("totalCurrentAssets", 280); ("propertyPlantEquipmentNet", 210);
         ("totalAssets", 750); ("depreciationAndAmortization", 45);
         ("netIncome", 100); ("totalLiabilities", 380);
         ("totalCurrentLiabilities", 140); ("operatingCashFlow", 110);
         ("weightedAverageShsOut", 1000) ]%string%float |}.

(** The feature vector of the scenario, evaluated. *)
Definition scenario_features : FeatureVector :=
  Eval vm_compute in
    match _ratios [scenario_prior; scenario_current] with
    | Ok fv => fv
    | Raise _ => zero_features
    end.

(** The scenario's current year for a company without revenue yet. *)
Definition pre_revenue_current : Row :=
  {| date := date scenario_current;
     items := <["revenue"%string := 0%float]> (items scenario_current) |}.

(** A fiscal year none of whose line items is reported. *)
Definition blank_year : Row := {| date := None; items := ∅ |}.

(** A provider that knows three tickers: ACME, with the two fiscal years
    of the scenario spread over the three statements (most recent first,
    as the endpoint lists them); BIOTECH, the same company without
    revenue in its current year; and NEWCO, listed for one year only. *)
Definition statement (year : Row) (names : list string) : Row :=
  {| date := date year;
     items := filter (fun kv => kv.1 ∈ names) (items year) |}.

Definition income_items : list string :=
  [ "revenue"; "costOfRevenue"; "netIncome"; "weightedAverageShsOut" ]%string.

Definition balance_items : list string :=
  [ "netReceivables"; "totalCurrentAssets"; "propertyPlantEquipmentNet";
    "totalAssets"; "totalLiabilities"; "totalCurrentLiabilities" ]%string.

Definition cash_flow_items : list string :=
  [ "netIncome"; "depreciationAndAmortization"; "operatingCashFlow" ]%string.

Definition statements (years : list Row) : list Row * list Row * list Row :=
  ((fun y => statement y income_items) <$> years,
   (fun y => statement y balance_items) <$> years,
   (fun y => statement y cash_flow_items) <$> years).

Definition scenario_fetch (tkr : string) : list Row * list Row * list Row :=
  if String.eqb tkr "ACME" then statements [scenario_current; scenario_prior]
  else if String.eqb tkr "BIOTECH" then
    statements [pre_revenue_current; scenario_prior]
  else if String.eqb tkr "NEWCO" then statements [scenario_current]
  else ([], [], []).

Definition scenario_proba (fv : FeatureVector) : float := 0.5%float.
Definition scenario_explainer (fv : FeatureVector) : list float := fields fv.

(** ** Columns the ratio engine reads *)

(** The line items [_ratios] looks up in the current year, and whose
    presence it tests ("ebit"). *)
Definition current_columns : list string :=
  [ "netReceivables"; "revenue"; "costOfRevenue"; "totalCurrentAssets";
    "propertyPlantEquipmentNet"; "totalAssets";
    "depreciationAndAmortization"; "netIncome"; "totalLiabilities";
    "totalCurrentLiabilities"; "ebit"; "operatingCashFlow";
    "weightedAverageShsOut" ]%string.

(** The line items it looks up in the prior year. *)
Definition prior_columns : list string :=
  [ "netReceivables"; "revenue"; "costOfRevenue"; "totalCurrentAssets";
    "propertyPlantEquipmentNet"; "totalAssets";
    "depreciationAndAmortization"; "netIncome"; "totalLiabilities";
    "totalCurrentLiabilities"; "weightedAverageShsOut" ]%string.

(** Two rows hold the same thing under every listed column. *)
Definition agree_on (names : list string) (r r' : Row) : Prop :=
  Forall (fun k => items r !! k = items r' !! k) names.

(** ** Shape of a fetched frame *)

(** Chronological order of two rows, missing dates last. *)
Definition not_later (a b : Row) : Prop := date_le (date a) (date b) = true.

(** A row none of whose line items is NaN. *)
Definition no_nan (r : Row) : Prop :=
  forall k x, items r !! k = Some x -> isnan x = false.

(** Every row of the frame has exactly the given columns. *)
Definition uniform (cols : gset string) (df : DataFrame) : Prop :=
  Forall (fun r => dom (items r) = cols) df.

(** ** The Fraud Detection tab *)

(** The method names the tab offers in its selectbox. *)
Definition method_options : list string :=
  [ "Custom Trained Model"; "Beneish M-Score"; "Piotroski F-Score" ]%string.

(** [method_key = "CatBoost" if meth == "Custom Trained Model" else meth]. *)
Definition method_key (meth : string) : string :=
  if String.eqb meth "Custom Trained Model" then "CatBoost"%string else meth.

(** [res["extra"][k]]; [None] when one of the two subscripts fails. *)
Definition extra_item {S : Type} (res : ScoreResult S) (k : string) : option value :=
  d ← extra res; d !! k.

(** ** 10-K explorer: text chunks and filing years *)

(** Words per chunk. *)
Definition CHUNK_W : nat := 220.

(** [range(0, n, step)] for a positive [step]. *)
Definition range_step (n step : nat) : list nat :=
  (fun j => j * step)%nat <$> seq 0 ((n + step - 1) / step)%nat.

(** [words[i:j]] for [0 <= i <= j]. *)
Definition slice (i j : nat) (words : list string) : list string :=
  take (j - i) (drop i words).

(** The chunks of a text, from its words [text.split()]:
    [[" ".join(words[i:i+CHUNK_W]) for i in range(0, len(words), CHUNK_W)]]. *)
Definition chunks (words : list string) : list string :=
  (fun i => String.concat " " (slice i (i + CHUNK_W) words))
  <$> range_step (length words) CHUNK_W.

(** The words that go into each chunk. *)
Definition chunk_words (words : list string) : list (list string) :=
  (fun i => slice i (i + CHUNK_W) words) <$> range_step (length words) CHUNK_W.

(** Filing year from the two digits [yy] of an accession number:
    [2000 + yy if yy <= current_yy else 1900 + yy]. *)
Definition filing_year (current_yy yy : Z) : Z :=
  if yy <=? current_yy then 2000 + yy else 1900 + yy.

(** ** Question answering over a long context *)

(** [range(0, n, step)] for [n >= 0] and any integer [step]: a zero step
    raises, a negative one gives the empty range. *)
Definition range0 (n : nat) (step : Z) : result (list nat) :=
  if step =? 0 then Raise (ValueError "range() arg 3 must not be zero")
  else if step <? 0 then Ok []
  else Ok (range_step n (Z.to_nat step)).

Section QA.

(** The question-answering pipeline: answer and score for a question and
    a context. *)
Variable nlp : string -> string -> string * float.

(** [str.split()]. *)
Variable split : string -> list string.

(** One turn of the loop of [qa]: the window starting at word [i]. *)
Definition qa_step (question : string) (words : list string) (max_chunk : Z)
    (acc : string * float) (i : nat) : string * float :=
  let '(best, score) := acc in
  let chunk := String.concat " " (slice i (i + Z.to_nat max_chunk) words) in
  let out := nlp question chunk in
  if gt (snd out) score then (fst out, snd out) else (best, score).

(** [qa(question, context, max_chunk=500)]. *)
Definition qa (question context : string) (max_chunk : option Z) : result string :=
  let max_chunk := arg_default 500 max_chunk in
  let words := split context in
  if Z.of_nat (length words) <=? max_chunk then
    Ok (fst (nlp question context))
  else
    starts ← range0 (length words) (max_chunk `div` 2);
    Ok (fst (foldl (qa_step question words max_chunk)
                   (""%string, (-1)%float) starts)).

End QA.

(** ** Further concrete inputs *)

(** The scenario without share counts in either year. *)
Definition unshared (year : Row) : Row :=
  {| date := date year;
     items := delete "weightedAverageShsOut"%string (items year) |}.

Definition unshared_features : FeatureVector :=
  Eval vm_compute in
    match _ratios [unshared scenario_prior; unshared scenario_current] with
    | Ok fv => fv
    | Raise _ => zero_features
    end.

(** The scenario's current year without current liabilities. *)
Definition debt_free_current : Row :=
  {| date := date scenario_current;
     items := delete "totalCurrentLiabilities"%string (items scenario_current) |}.

Definition debt_free_features : FeatureVector :=
  Eval vm_compute in
    match _ratios [scenario_prior; debt_free_current] with
    | Ok fv => fv
    | Raise _ => zero_features
    end.

(** The scenario's current year with a column the engine does not read
    and no date. *)
Definition annotated_current : Row :=
  {| date := None;
     items := <["goodwill"%string := 75%float]> (items scenario_current) |}.

(** ACME as a provider that lists the older fiscal year first. *)
Definition oldest_first_fetch (tkr : string) : list Row * list Row * list Row :=
  statements [scenario_prior; scenario_current].

(** A pipeline that echoes its context, and a text of three words. *)
Definition echo_nlp (question context : string) : string * float :=
  (context, 0.5%float).

Definition three_words (context : string) : list string :=
  [ "total"; "net"; "income" ]%string.

(** ** Random portfolios of the Optimizer tab *)

(** One row of the result frame of [markowitz_random_portfolios]. *)
Record Portfolio : Type := {
  Return : float;
  Volatility : float;
  Sharpe : float;
  Weights : gmap string float
}.

(** [dict(zip(keys, values))]: of two entries with one key the later one
    stays. *)
Definition dict_zip (keys : list string) (values : list float) : gmap string float :=
  list_to_map (reverse (zip keys values)).

Section Markowitz.

(** The random source: the weights [np.random.dirichlet(np.ones(n))]
    gives in the pass of the loop that starts with [attempts = k]. *)
Variable dirichlet : nat -> list float.

(** Numerics on the returns frame: [np.dot(w, mean_returns)] and
    [w @ cov_matrix @ w]. *)
Variable expected_return : list float -> float.
Variable variance : list float -> float.

(** [daily_returns.columns.tolist()]. *)
Variable tickers : list string.

Variable num_portfolios : nat.
Variables rf min_weight max_weight : float.

(** [np.all(w >= min_weight) and np.all(w <= max_weight)]. *)
Definition within_bounds (w : list float) : bool :=
  forallb (fun x => (min_weight <=? x)%float) w
  && forallb (fun x => (x <=? max_weight)%float) w.

(** The row appended for accepted weights. *)
Definition portfolio_row (w : list float) : Portfolio :=
  let p_ret := expected_return w in
  let p_vol := PrimFloat.sqrt (variance w) in
  let sharpe := if negb (p_vol =? 0)%float then ((p_ret - rf) / p_vol)%float
                else nan in
  {| Return := p_ret; Volatility := p_vol; Sharpe := sharpe;
     Weights := dict_zip tickers w |}.

(** The [while] loop; [fuel] bounds the number of passes. *)
Fixpoint markowitz_loop (fuel : nat) (results : list Portfolio) (attempts : nat)
  : list Portfolio :=
  match fuel with
  | O => results
  | S fuel' =>
      if bool_decide (length results < num_portfolios)%nat
         && bool_decide (attempts < num_portfolios * 10)%nat
      then
        let w := dirichlet attempts in
        let results :=
          if within_bounds w then results ++ [portfolio_row w] else results in
        markowitz_loop fuel' results (S attempts)
      else results
  end.

(** [markowitz_random_portfolios]: the loop cannot make more than
    [num_portfolios * 10] passes. *)
Definition markowitz_random_portfolios : list Portfolio :=
  markowitz_loop (num_portfolios * 10) [] 0.

(** The draws of the first [k] passes. *)
Definition draws (start k : nat) : list (list float) :=
  dirichlet <$> seq start k.

End Markowitz.

(** Two tickers, draws that alternate between a lopsided and an even
    split, and flat numerics. *)
Definition alternating_draws (k : nat) : list float :=
  if Nat.even k then [0.9; 0.1]%float else [0.5; 0.5]%float.

Definition flat_return (w : list float) : float := 0.1%float.
Definition flat_variance (w : list float) : float := 0.04%float.

(** * Properties *)

(** ** Floats and the error monad *)

Lemma bind_Ok {A B} (a : A) (k : A -> result B) : Ok a ≫= k = k a.
Proof. reflexivity. Qed.

Lemma truediv_nonzero (x y : float) :
  (y =? 0)%float = false -> x /! y = Ok (x / y)%float.
Proof. unfold truediv. by intros ->. Qed.

Lemma truediv_zero (x y : float) :
  (y =? 0)%float = true -> x /! y = Raise ZeroDivisionError.
Proof. unfold truediv. by intros ->. Qed.

Lemma truediv_Raise_inv (x y : float) (e : exn) :
  x /! y = Raise e -> (y =? 0)%float = true /\ e = ZeroDivisionError.
Proof.
  unfold truediv. destruct (y =? 0)%float; [| discriminate].
  by intros [= <-].
Qed.

(** ** Safe division *)

(** What [_div] computes, as one conditional: the guard leaves no
    division that can raise. *)
Lemma _div_unfold (n d : float) (fallback : option float) :
  _div n d fallback =
  if (d =? 0)%float || isnan d then arg_default 0%float fallback
  else (n / d)%float.
Proof.
  unfold _div, truediv.
  destruct (d =? 0)%float eqn:Hz; simpl; [done |].
  by destruct (isnan d).
Qed.

(** C2, as stated, fails: with denominator +infinity (or -infinity) the
    guard [d == 0 or np.isnan(d)] does not fire and the quotient is
    returned, not the fallback. *)
Lemma div_infinite_denominator_counterexample :
  is_finite infinity = false /\ is_finite neg_infinity = false /\
  _div 1 infinity (Some 1%float) = 0%float /\
  _div 1 neg_infinity (Some 1%float) = (-0)%float /\
  _div 1 infinity (Some 1%float) <> 1%float /\
  _div 1 neg_infinity (Some 1%float) <> 1%float.
Proof.
  repeat split; try reflexivity.
  - intros H. apply (f_equal (fun x => (x =? 1)%float)) in H.
    vm_compute in H. discriminate.
  - intros H. apply (f_equal (fun x => (x =? 1)%float)) in H.
    vm_compute in H. discriminate.
Qed.

(** C2 (amended): [_div(n, d, f)] returns [f] whenever [d] is zero or
    NaN and returns the quotient [n / d] otherwise, a denominator of
    +infinity or -infinity included; an exception raised by the division
    is trapped and gives [f]; an omitted fallback is [0.0]. *)
Theorem div_safe (n d f : float) :
  ((d =? 0)%float = true \/ isnan d = true -> _div n d (Some f) = f) /\
  ((d =? 0)%float = false -> isnan d = false ->
     _div n d (Some f) = (n / d)%float) /\
  _div n infinity (Some f) = (n / infinity)%float /\
  _div n neg_infinity (Some f) = (n / neg_infinity)%float /\
  (forall e, n /! d = Raise e -> _div n d (Some f) = f) /\
  _div n d None = _div n d (Some 0%float).
Proof.
  rewrite !_div_unfold. split_and!.
  - intros [-> | ->]; [done |]. by rewrite orb_true_r.
  - by intros -> ->.
  - reflexivity.
  - reflexivity.
  - intros e He. apply truediv_Raise_inv in He as [-> _]. done.
  - done.
Qed.

(** [div_safe] at work: a zero denominator gives the fallback, and the
    division that would raise is the trapped one. *)
Lemma div_safe_witness :
  _div 7 0 (Some 5%float) = 5%float /\
  _div 7 2 (Some 5%float) = 3.5%float /\
  _div 7 0 (Some 5%float) = 5%float.
Proof.
  split; [| split].
  - apply (proj1 (div_safe 7 0 5)). left. reflexivity.
  - apply (proj1 (proj2 (div_safe 7 2 5))); reflexivity.
  - apply (proj1 (proj2 (proj2 (proj2 (proj2 (div_safe 7 0 5)))))
             ZeroDivisionError).
    reflexivity.
Defined.

(** ** Rule scorers *)

(** C3: the M-Score of any feature vector is the published linear
    formula, its flag is exactly the test "score > -2.22", and on the
    all-zero vector the score is the intercept -4.84 with the flag off. *)
Theorem beneish_score_spec (r : FeatureVector) :
  fst (beneish_score r)
  = m_score_formula (DSRI r) (GMI r) (AQI r) (SGI r) (DEPI r) (SGAI r) (TATA r) /\
  snd (beneish_score r) = (-2.22 <? fst (beneish_score r))%float /\
  beneish_score zero_features = ((-4.84)%float, false).
Proof. split_and!; reflexivity. Qed.

(** The running sum of [piotroski_score] counts its nine summands. *)
Lemma piotroski_sum_count (b1 b2 b3 b4 b5 b6 b7 b8 b9 : bool) :
  0 + Z.b2z b1 + Z.b2z b2 + Z.b2z b3 + Z.b2z b4 + Z.b2z b5 + Z.b2z b6
    + Z.b2z b7 + Z.b2z b8 + Z.b2z b9
  = count_true [b1; b2; b3; b4; b5; b6; b7; b8; b9].
Proof.
  destruct b1, b2, b3, b4, b5, b6, b7, b8, b9; reflexivity.
Qed.

Lemma count_true_bounds (tests : list bool) :
  0 <= count_true tests <= Z.of_nat (length tests).
Proof.
  unfold count_true. split; [lia |].
  apply inj_le, length_filter.
Qed.

(** C4: the F-Score is the number of the nine tests that hold, an
    integer between 0 and 9, and the flag is exactly "score <= 3". *)
Theorem piotroski_score_spec (r : FeatureVector) :
  fst (piotroski_score r) = count_true (piotroski_tests r) /\
  0 <= fst (piotroski_score r) <= 9 /\
  snd (piotroski_score r) = (fst (piotroski_score r) <=? 3) /\
  (snd (piotroski_score r) = true <-> fst (piotroski_score r) <= 3).
Proof.
  assert (Hcount : fst (piotroski_score r) = count_true (piotroski_tests r)).
  { unfold piotroski_score, piotroski_tests, gt. cbn [fst].
    apply piotroski_sum_count. }
  split_and!.
  - exact Hcount.
  - rewrite Hcount. apply (count_true_bounds (piotroski_tests r)).
  - rewrite Hcount. apply (count_true_bounds (piotroski_tests r)).
  - reflexivity.
  - cbn [snd fst piotroski_score]. apply Z.leb_le.
Qed.

(** ** Ratio engine *)

Lemma iloc_neg_pair (p c : Row) :
  iloc_neg 1 [p; c] = Ok c /\ iloc_neg 2 [p; c] = Ok p.
Proof. split; reflexivity. Qed.

(** The next unguarded division succeeds, resp. raises. *)
Ltac div_ok H :=
  lazymatch goal with
  | |- (?x /! ?d) ≫= _ = _ =>
      rewrite (truediv_nonzero x d H); rewrite bind_Ok; cbv beta
  end.
Ltac div_raise H :=
  lazymatch goal with
  | |- (?x /! ?d) ≫= _ = _ =>
      rewrite (truediv_zero x d H); reflexivity
  end.

(** Enter [_ratios] on a frame of two rows. *)
Ltac ratios_pair p c :=
  unfold _ratios;
  rewrite (proj1 (iloc_neg_pair p c)), bind_Ok; cbv beta;
  rewrite (proj2 (iloc_neg_pair p c)), bind_Ok; cbv beta zeta.

(** When none of the six unguarded divisors is zero, [_ratios] returns,
    and the seven year-over-year indices are [_div] of the ratios of the
    specification's table. *)
Lemma ratios_pair_Ok (p c : Row) :
  forallb (fun d => negb (is_zero_denominator d)) (raw_denominators p c) = true ->
  exists fv, _ratios [p; c] = Ok fv /\
    DSRI fv = _div (receivables_to_sales c) (receivables_to_sales p) None /\
    GMI fv = _div (gross_margin_ratio p) (gross_margin_ratio c) None /\
    AQI fv = _div (asset_quality c) (asset_quality p) None /\
    SGI fv = _div (g c "revenue") (g p "revenue") None /\
    DEPI fv = _div (depreciation_rate p) (depreciation_rate c) None /\
    SGAI fv = _div (sga_ratio c) (sga_ratio p) None /\
    LVGI fv = _div (liabilities_to_assets c) (liabilities_to_assets p) None.
Proof.
  unfold raw_denominators, is_zero_denominator. cbn [forallb].
  rewrite !andb_true_iff, !negb_true_iff.
  intros (H1 & H2 & H3 & H4 & H5 & H6 & _).
  eexists. split.
  - ratios_pair p c.
    div_ok H1. div_ok H2. div_ok H2. div_ok H1. div_ok H3. div_ok H4.
    div_ok H5. div_ok H6. div_ok H1. div_ok H2. div_ok H3. div_ok H4.
    reflexivity.
  - split_and!; reflexivity.
Qed.

(** When one of them is zero, [_ratios] raises [ZeroDivisionError]. *)
Lemma ratios_pair_Raise (p c : Row) :
  forallb (fun d => negb (is_zero_denominator d)) (raw_denominators p c) = false ->
  _ratios [p; c] = Raise ZeroDivisionError.
Proof.
  unfold raw_denominators, is_zero_denominator. cbn [forallb].
  intros H. ratios_pair p c.
  destruct (g c "revenue" =? 0)%float eqn:H1; [div_raise H1 | div_ok H1].
  destruct (g p "revenue" =? 0)%float eqn:H2; [div_raise H2 | div_ok H2].
  div_ok H2. div_ok H1.
  destruct (g c "totalAssets" =? 0)%float eqn:H3; [div_raise H3 | div_ok H3].
  destruct (g p "totalAssets" =? 0)%float eqn:H4; [div_raise H4 | div_ok H4].
  destruct (g p "depreciationAndAmortization"
            + g p "propertyPlantEquipmentNet" =? 0)%float eqn:H5;
    [div_raise H5 | div_ok H5].
  destruct (g c "depreciationAndAmortization"
            + g c "propertyPlantEquipmentNet" =? 0)%float eqn:H6;
    [div_raise H6 | div_ok H6].
  discriminate H.
Qed.

(** C1 (the code departs from it): with a zero current or prior revenue
    or a zero current or prior total-assets figure, [_ratios] does not
    return a feature vector: the quotient taken before [_div] is entered
    raises [ZeroDivisionError]. *)
Theorem ratios_zero_denominator_raises (p c : Row) :
  (g c "revenue" =? 0)%float = true \/ (g p "revenue" =? 0)%float = true \/
  (g c "totalAssets" =? 0)%float = true \/ (g p "totalAssets" =? 0)%float = true ->
  _ratios [p; c] = Raise ZeroDivisionError.
Proof.
  intros H. apply ratios_pair_Raise.
  unfold raw_denominators, is_zero_denominator. cbn [forallb].
  destruct H as [-> | [-> | [-> | ->]]]; cbn [negb andb];
    rewrite ?andb_false_r; reflexivity.
Qed.

(** The failing inputs: a company without revenue, and two blank years
    whose line items all default to [0.0]. *)
Lemma ratios_zero_denominator_raises_witness :
  _ratios [scenario_prior; pre_revenue_current] = Raise ZeroDivisionError /\
  _ratios [blank_year; blank_year] = Raise ZeroDivisionError.
Proof.
  split.
  - apply (ratios_zero_denominator_raises scenario_prior pre_revenue_current).
    left. reflexivity.
  - apply (ratios_zero_denominator_raises blank_year blank_year).
    left. reflexivity.
Defined.

(** A zero that reaches [_div] as its denominator is absorbed: without
    current liabilities the engine returns, with liquidity and current
    ratio at the fallback. *)
Example ratios_zero_current_liabilities :
  let c := {| date := date scenario_current;
              items := <["totalCurrentLiabilities"%string := 0%float]>
                         (items scenario_current) |} in
  exists fv, _ratios [scenario_prior; c] = Ok fv /\
    liquidity fv = 0%float /\ CurrRatio fv = 0%float /\
    forallb is_finite (fields fv) = true.
Proof.
  eexists. split; [vm_compute; reflexivity |].
  split_and!; vm_compute; reflexivity.
Qed.

(** C6: on the scenario the engine returns, with DSRI = (100/1000)/(80/900)
    = 1.125 and SGI = 1000/900, and the F-Score tests 1 (ROA positive),
    2 (CFO positive), 3 (ROA increase), 5 (leverage decrease) and 9
    (shares unchanged) hold, so their points are in the score. *)
Theorem scenario_ratios_and_points :
  exists fv, _ratios [scenario_prior; scenario_current] = Ok fv /\
    DSRI fv = ((100 / 1000) / (80 / 900))%float /\
    DSRI fv = 1.125%float /\
    SGI fv = (1000 / 900)%float /\
    piotroski_tests fv !! 0%nat = Some true /\
    piotroski_tests fv !! 1%nat = Some true /\
    piotroski_tests fv !! 2%nat = Some true /\
    piotroski_tests fv !! 4%nat = Some true /\
    piotroski_tests fv !! 8%nat = Some true /\
    piotroski_score fv = (8, false) /\
    fst (piotroski_score fv) = count_true (piotroski_tests fv).
Proof.
  eexists. split; [vm_compute; reflexivity |].
  split_and!; vm_compute; reflexivity.
Qed.

(** C7: the engine returns as soon as none of its unguarded divisors is
    zero, and whenever it returns, GMI and DEPI are [_div] of the
    prior-period ratio (numerator argument) by the current-period ratio
    (denominator argument), while DSRI, AQI, SGI, SGAI and LVGI are
    [_div] of the current-period quantity by the prior-period one. *)
Theorem gmi_depi_prior_over_current (p c : Row) :
  (forallb (fun d => negb (is_zero_denominator d)) (raw_denominators p c) = true ->
   exists fv, _ratios [p; c] = Ok fv) /\
  (forall fv, _ratios [p; c] = Ok fv ->
     GMI fv = _div (gross_margin_ratio p) (gross_margin_ratio c) None /\
     DEPI fv = _div (depreciation_rate p) (depreciation_rate c) None /\
     DSRI fv = _div (receivables_to_sales c) (receivables_to_sales p) None /\
     AQI fv = _div (asset_quality c) (asset_quality p) None /\
     SGI fv = _div (g c "revenue") (g p "revenue") None /\
     SGAI fv = _div (sga_ratio c) (sga_ratio p) None /\
     LVGI fv = _div (liabilities_to_assets c) (liabilities_to_assets p) None).
Proof.
  destruct (forallb (fun d => negb (is_zero_denominator d))
                    (raw_denominators p c)) eqn:Hden.
  - destruct (ratios_pair_Ok p c Hden) as (fv' & Hfv' & H).
    split; [by exists fv' |].
    intros fv Hfv. rewrite Hfv in Hfv'. injection Hfv' as <-. tauto.
  - split; [discriminate |].
    intros fv Hfv. rewrite (ratios_pair_Raise p c Hden) in Hfv. discriminate.
Qed.

Lemma gmi_depi_prior_over_current_witness :
  (exists fv, _ratios [scenario_prior; scenario_current] = Ok fv) /\
  GMI scenario_features
  = _div (gross_margin_ratio scenario_prior)
         (gross_margin_ratio scenario_current) None /\
  DEPI scenario_features
  = _div (depreciation_rate scenario_prior)
         (depreciation_rate scenario_current) None.
Proof.
  destruct (gmi_depi_prior_over_current scenario_prior scenario_current)
    as (Hret & Horder).
  split.
  - apply Hret. vm_compute. reflexivity.
  - destruct (Horder scenario_features) as (HG & HD & _).
    + vm_compute. reflexivity.
    + split; assumption.
Defined.

(** ** Statement fetch *)

Lemma length_insert_by_date (r : Row) (df : DataFrame) :
  length (insert_by_date r df) = S (length df).
Proof.
  induction df as [| x df IH]; [done |].
  cbn [insert_by_date]. destruct (date_le (date r) (date x)); [done |].
  cbn [length]. by rewrite IH.
Qed.

Lemma length_sort_values_date (df : DataFrame) :
  length (sort_values_date df) = length df.
Proof.
  induction df as [| r df IH]; [done |].
  cbn [sort_values_date foldr]. rewrite length_insert_by_date.
  fold (sort_values_date df). by rewrite IH.
Qed.

Lemma length_fillna0 (df : DataFrame) : length (fillna0 df) = length df.
Proof. unfold fillna0. apply length_fmap. Qed.

Lemma length_pd_DataFrame (records : list Row) :
  length (pd_DataFrame records) = length records.
Proof. unfold pd_DataFrame. apply length_fmap. Qed.

Lemma length_reindex (n : nat) (df : DataFrame) : length (reindex n df) = n.
Proof. unfold reindex. by rewrite length_fmap, length_seq. Qed.

(** The concatenated frame has as many rows as the longest frame. *)
Lemma length_concat_axis1 (frames : list DataFrame) :
  length (concat_axis1 frames) = max_list (length <$> frames).
Proof.
  unfold concat_axis1. generalize (max_list (length <$> frames)) as n.
  intros n. induction frames as [| df frames IH]; cbn [foldr].
  - apply length_replicate.
  - rewrite length_zip_with, length_reindex, IH. lia.
Qed.

Section DispatcherProperties.

Variable fetch : string -> list Row * list Row * list Row.
Variable shap_values : Type.
Variable predict_proba : FeatureVector -> float.
Variable TreeExplainer : FeatureVector -> shap_values.

Local Abbreviation two_years := (_two_years fetch).
Local Abbreviation predict_with' :=
  (predict_with fetch shap_values predict_proba TreeExplainer).
Local Abbreviation predict' :=
  (predict fetch shap_values predict_proba TreeExplainer).
Local Abbreviation classifier_result' :=
  (classifier_result shap_values predict_proba TreeExplainer).
Local Abbreviation beneish_result' := (beneish_result shap_values).
Local Abbreviation piotroski_result' := (piotroski_result shap_values).

(** A frame [_two_years] returns has exactly two rows. *)
Lemma two_years_length (tkr : string) (df2 : DataFrame) :
  two_years tkr = Some df2 -> length df2 = 2%nat.
Proof.
  unfold _two_years. destruct (fetch tkr) as [[inc bal] cf].
  destruct (_ || _); [discriminate |].
  destruct (decide _) as [Hlen |]; [| discriminate].
  intros [= <-]. unfold tail. rewrite length_drop. lia.
Qed.

(** With at most one record per statement, [_two_years] gives up. *)
Lemma two_years_short (tkr : string) (inc bal cf : list Row) :
  fetch tkr = (inc, bal, cf) ->
  (length inc < 2)%nat -> (length bal < 2)%nat -> (length cf < 2)%nat ->
  two_years tkr = None.
Proof.
  intros Hfetch Hinc Hbal Hcf. unfold _two_years. rewrite Hfetch.
  destruct (_ || _); [done |].
  destruct (decide _) as [Hlen |]; [| done].
  rewrite length_fillna0, length_sort_values_date, length_concat_axis1 in Hlen.
  cbn [fmap list_fmap max_list] in Hlen.
  rewrite !length_pd_DataFrame in Hlen. unfold id in Hlen. lia.
Qed.

(** ** Dispatcher *)

(** C5: when every statement of a ticker has fewer than two fiscal
    years, [predict] returns [None] for any method without raising, and
    it does so whatever the ratio engine is bound to, even an engine that
    always raises: the engine is not called.  Conversely a [None] result
    only ever comes from the statement fetch giving up. *)
Theorem predict_insufficient_history
    (tkr : string) (method : option string) (inc bal cf : list Row) :
  fetch tkr = (inc, bal, cf) ->
  (length inc < 2)%nat -> (length bal < 2)%nat -> (length cf < 2)%nat ->
  predict' tkr method = Ok None /\
  (forall engine, predict_with' engine tkr method = Ok None) /\
  predict_with' (fun _ => Raise IndexError) tkr method = Ok None /\
  (forall tkr' method', predict' tkr' method' = Ok None -> two_years tkr' = None).
Proof.
  intros Hfetch Hinc Hbal Hcf.
  pose proof (two_years_short tkr inc bal cf Hfetch Hinc Hbal Hcf) as Hnone.
  assert (Hany : forall engine, predict_with' engine tkr method = Ok None).
  { intros engine. unfold predict_with. by rewrite Hnone. }
  split_and!; [apply Hany | exact Hany | apply Hany |].
  intros tkr' method'. unfold predict, predict_with.
  destruct (two_years tkr') as [df2 |]; [| done].
  destruct (_ratios df2) as [fv | e]; cbn [mbind result_bind]; [| discriminate].
  destruct (String.eqb _ "CatBoost"); [discriminate |].
  destruct (String.eqb _ "Beneish M-Score");
    [destruct (beneish_score fv); discriminate |].
  destruct (String.eqb _ "Piotroski F-Score");
    [destruct (piotroski_score fv); discriminate | discriminate].
Qed.

(** Presence of a field against the method name, both sides decided. *)
Ltac presence :=
  first
    [ reflexivity
    | split; intros H;
      lazymatch type of H with
      | is_Some None => by destruct H as [? [=]]
      | _ \/ _ => by destruct H as [[=] | [=]]
      | _ => first [ discriminate H | reflexivity | by left | by right
                   | by eexists ]
      end ].

(** What [predict] does once the frame and its features are there. *)
Lemma predict_dispatch (tkr : string) (method : option string)
    (df2 : DataFrame) (fv : FeatureVector) :
  two_years tkr = Some df2 -> _ratios df2 = Ok fv ->
  predict' tkr method =
  let m := arg_default "CatBoost"%string method in
  if String.eqb m "CatBoost" then Ok (Some (classifier_result' fv))
  else if String.eqb m "Beneish M-Score" then Ok (Some (beneish_result' fv))
  else if String.eqb m "Piotroski F-Score" then Ok (Some (piotroski_result' fv))
  else Raise (ValueError "Unknown method").
Proof.
  intros Hdf Hfv. unfold predict, predict_with. rewrite Hdf, Hfv.
  cbn [mbind result_bind]. cbv zeta.
  destruct (String.eqb _ "CatBoost"); [done |].
  destruct (String.eqb _ "Beneish M-Score");
    [unfold beneish_result; by destruct (beneish_score fv) |].
  destruct (String.eqb _ "Piotroski F-Score");
    [unfold piotroski_result; by destruct (piotroski_score fv) | done].
Qed.

(** C8: for a ticker with two fiscal years whose features compute, the
    classifier result carries probability and attribution and no extra
    payload, the two rule results carry the extra payload (score and
    flag) and neither probability nor attribution, and every result
    carries the feature vector; so in any returned result the
    probability and the attribution are present exactly for the
    classifier and the extra payload exactly for the two rule methods. *)
Theorem predict_result_shape (tkr : string) (df2 : DataFrame) (fv : FeatureVector) :
  two_years tkr = Some df2 -> _ratios df2 = Ok fv ->
  predict' tkr (Some "CatBoost"%string) = Ok (Some (classifier_result' fv)) /\
  predict' tkr (Some "Beneish M-Score"%string) = Ok (Some (beneish_result' fv)) /\
  predict' tkr (Some "Piotroski F-Score"%string) = Ok (Some (piotroski_result' fv)) /\
  (forall method res, predict' tkr method = Ok (Some res) ->
     let m := arg_default "CatBoost"%string method in
     feats res = fv /\
     (is_Some (prob res) <-> m = "CatBoost"%string) /\
     (is_Some (shap res) <-> m = "CatBoost"%string) /\
     (is_Some (extra res) <->
        m = "Beneish M-Score"%string \/ m = "Piotroski F-Score"%string)).
Proof.
  intros Hdf Hfv. split_and!;
    try (rewrite (predict_dispatch _ _ df2 fv Hdf Hfv); reflexivity).
  intros method res. rewrite (predict_dispatch _ _ df2 fv Hdf Hfv). cbv zeta.
  generalize (arg_default "CatBoost"%string method) as m. intros m.
  destruct (String.eqb_spec m "CatBoost") as [-> | Hcb];
    [intros [= <-]; cbn; split_and!; presence |].
  destruct (String.eqb_spec m "Beneish M-Score") as [-> | Hbe];
    [intros [= <-]; cbn; split_and!; presence |].
  destruct (String.eqb_spec m "Piotroski F-Score") as [-> | Hpi];
    [intros [= <-]; cbn; split_and!; presence |].
  discriminate.
Qed.

(** C9: for a ticker with two fiscal years, a method name outside the
    three recognised ones never yields a result: [predict] raises, and
    when the features compute the exception is
    [ValueError("Unknown method")]. *)
Theorem predict_unknown_method_raises
    (tkr : string) (method : string) (df2 : DataFrame) :
  two_years tkr = Some df2 ->
  method <> "CatBoost"%string -> method <> "Beneish M-Score"%string ->
  method <> "Piotroski F-Score"%string ->
  (exists e, predict' tkr (Some method) = Raise e) /\
  (forall fv, _ratios df2 = Ok fv ->
     predict' tkr (Some method) = Raise (ValueError "Unknown method")).
Proof.
  intros Hdf Hcb Hbe Hpi.
  apply String.eqb_neq in Hcb, Hbe, Hpi.
  assert (Hok : forall fv, _ratios df2 = Ok fv ->
            predict' tkr (Some method) = Raise (ValueError "Unknown method")).
  { intros fv Hfv. rewrite (predict_dispatch _ _ df2 fv Hdf Hfv).
    cbn [arg_default]. cbv zeta. by rewrite Hcb, Hbe, Hpi. }
  split; [| exact Hok].
  destruct (_ratios df2) as [fv | e] eqn:Hfv.
  - eexists. by apply (Hok fv).
  - exists e. unfold predict, predict_with. by rewrite Hdf, Hfv.
Qed.

(** C10: a call that omits [method] is the call with "CatBoost". *)
Theorem predict_default_method (tkr : string) :
  predict fetch shap_values predict_proba TreeExplainer tkr None
  = predict fetch shap_values predict_proba TreeExplainer tkr
            (Some "CatBoost"%string).
Proof. unfold predict, predict_with. reflexivity. Qed.

End DispatcherProperties.

(** ** The properties at work on a concrete provider *)

(** The frame of ACME: the statements are joined column-wise and the
    two fiscal years come out in chronological order. *)
Example scenario_two_years :
  _two_years scenario_fetch "ACME" = Some [scenario_prior; scenario_current].
Proof. vm_compute. reflexivity. Qed.

(** NEWCO has one fiscal year and an unlisted ticker none: no result,
    and no exception. *)
Lemma predict_insufficient_history_witness :
  predict scenario_fetch (list float) scenario_proba scenario_explainer
          "NEWCO" (Some "Piotroski F-Score"%string) = Ok None /\
  (forall engine,
     predict_with scenario_fetch (list float) scenario_proba scenario_explainer
                  engine "NEWCO" (Some "Piotroski F-Score"%string) = Ok None) /\
  predict scenario_fetch (list float) scenario_proba scenario_explainer
          "ZZZZ" None = Ok None.
Proof.
  destruct (predict_insufficient_history
              scenario_fetch (list float) scenario_proba scenario_explainer
              "NEWCO" (Some "Piotroski F-Score"%string)
              [statement scenario_current income_items]
              [statement scenario_current balance_items]
              [statement scenario_current cash_flow_items])
    as (Hnone & Hany & _);
    [reflexivity | cbn [length]; lia | cbn [length]; lia | cbn [length]; lia |].
  destruct (predict_insufficient_history
              scenario_fetch (list float) scenario_proba scenario_explainer
              "ZZZZ" None [] [] [])
    as (Hnone' & _);
    [reflexivity | cbn [length]; lia | cbn [length]; lia | cbn [length]; lia |].
  split; [exact Hnone |]. split; [exact Hany | exact Hnone'].
Defined.

(** ACME under the three methods. *)
Lemma predict_result_shape_witness :
  predict scenario_fetch (list float) scenario_proba scenario_explainer
          "ACME" (Some "CatBoost"%string)
  = Ok (Some {| prob := Some 0.5%float;
                shap := Some (fields scenario_features);
                feats := scenario_features; extra := None |}) /\
  predict scenario_fetch (list float) scenario_proba scenario_explainer
          "ACME" (Some "Beneish M-Score"%string)
  = Ok (Some (beneish_result (list float) scenario_features)) /\
  predict scenario_fetch (list float) scenario_proba scenario_explainer
          "ACME" (Some "Piotroski F-Score"%string)
  = Ok (Some {| prob := None; shap := None; feats := scenario_features;
                extra := Some (<["F-Score"%string := VInt 8]>
                               {["flag"%string := VBool false]}) |}).
Proof.
  destruct (predict_result_shape
              scenario_fetch (list float) scenario_proba scenario_explainer
              "ACME" [scenario_prior; scenario_current] scenario_features)
    as (Hcb & Hbe & Hpi & _).
  - vm_compute. reflexivity.
  - vm_compute. reflexivity.
  - split; [exact Hcb |]. split; [exact Hbe | exact Hpi].
Defined.

(** ACME under a method name that does not exist. *)
Lemma predict_unknown_method_raises_witness :
  predict scenario_fetch (list float) scenario_proba scenario_explainer
          "ACME" (Some "Altman Z-Score"%string)
  = Raise (ValueError "Unknown method").
Proof.
  destruct (predict_unknown_method_raises
              scenario_fetch (list float) scenario_proba scenario_explainer
              "ACME" "Altman Z-Score" [scenario_prior; scenario_current])
    as (_ & Hraise).
  - vm_compute. reflexivity.
  - discriminate.
  - discriminate.
  - discriminate.
  - apply (Hraise scenario_features). vm_compute. reflexivity.
Defined.

(** The zero-revenue failure of [_ratios] reaches the caller of [predict],
    whatever the method. *)
Example predict_pre_revenue_raises :
  _two_years scenario_fetch "BIOTECH" = Some [scenario_prior; pre_revenue_current] /\
  predict scenario_fetch (list float) scenario_proba scenario_explainer
          "BIOTECH" None = Raise ZeroDivisionError /\
  predict scenario_fetch (list float) scenario_proba scenario_explainer
          "BIOTECH" (Some "Beneish M-Score"%string) = Raise ZeroDivisionError.
Proof. split_and!; vm_compute; reflexivity. Qed.

(** * Further properties of the engine *)

(** ** Ratio engine: bounds and rows read *)

Lemma iloc_neg_app_pair (df : DataFrame) (p c : Row) :
  iloc_neg 1 (df ++ [p; c]) = Ok c /\ iloc_neg 2 (df ++ [p; c]) = Ok p.
Proof.
  unfold iloc_neg. rewrite length_app. cbn [length].
  split.
  - destruct (decide _) as [_ | Hn]; [| lia].
    replace (length df + 2 - 1)%nat with (length df + 1)%nat by lia.
    by rewrite lookup_app_r, Nat.add_comm, Nat.add_sub by lia.
  - destruct (decide _) as [_ | Hn]; [| lia].
    replace (length df + 2 - 2)%nat with (length df + 0)%nat by lia.
    by rewrite lookup_app_r, Nat.add_comm, Nat.add_sub by lia.
Qed.

(** X1: a frame with fewer than two rows makes [_ratios] raise
    [IndexError]: [df2.iloc[-1]] fails on the empty frame and
    [df2.iloc[-2]] on a frame of one row. *)
Theorem ratios_short_frame_raises (df2 : DataFrame) :
  (length df2 < 2)%nat -> _ratios df2 = Raise IndexError.
Proof.
  intros Hlen. destruct df2 as [| r [| r' df]]; [reflexivity | reflexivity |].
  cbn [length] in Hlen. lia.
Qed.

Lemma ratios_short_frame_raises_witness :
  _ratios [] = Raise IndexError /\ _ratios [scenario_current] = Raise IndexError.
Proof.
  split.
  - apply (ratios_short_frame_raises []). cbn [length]. lia.
  - apply (ratios_short_frame_raises [scenario_current]). cbn [length]. lia.
Defined.

(** X2: [_ratios] reads the last two rows of its frame and nothing
    else: rows in front of them do not change what it returns or
    raises. *)
Theorem ratios_reads_last_two_rows (df : DataFrame) (p c : Row) :
  _ratios (df ++ [p; c]) = _ratios [p; c].
Proof.
  unfold _ratios.
  rewrite (proj1 (iloc_neg_app_pair df p c)), (proj1 (iloc_neg_pair p c)).
  rewrite !bind_Ok.
  rewrite (proj2 (iloc_neg_app_pair df p c)), (proj2 (iloc_neg_pair p c)).
  reflexivity.
Qed.

(** ** Ratio engine: when it fails, and what it fills in *)

(** X3: on a frame of two rows [_ratios] either returns or raises
    [ZeroDivisionError], never anything else; it raises exactly when one
    of the six quantities it divides by outside [_div] compares equal to
    zero: current or prior revenue, current or prior total assets, or
    depreciation plus net PPE of either year. *)
Theorem ratios_pair_outcome (p c : Row) :
  ((exists fv, _ratios [p; c] = Ok fv) <->
   forallb (fun d => negb (is_zero_denominator d)) (raw_denominators p c) = true) /\
  (_ratios [p; c] = Raise ZeroDivisionError <->
   existsb is_zero_denominator (raw_denominators p c) = true) /\
  (forall e, _ratios [p; c] = Raise e -> e = ZeroDivisionError).
Proof.
  assert (Hex : existsb is_zero_denominator (raw_denominators p c)
                = negb (forallb (fun d => negb (is_zero_denominator d))
                                (raw_denominators p c))).
  { unfold raw_denominators. cbn [existsb forallb].
    repeat (destruct (is_zero_denominator _); cbn [negb orb andb]; try reflexivity). }
  rewrite Hex.
  destruct (forallb _ (raw_denominators p c)) eqn:Hden.
  - destruct (ratios_pair_Ok p c Hden) as (fv & Hfv & _).
    rewrite Hfv. split_and!.
    + split; [done | by exists fv].
    + split; discriminate.
    + discriminate.
  - rewrite (ratios_pair_Raise p c Hden). split_and!.
    + split; [intros [fv [=]] | discriminate].
    + done.
    + by intros e [= <-].
Qed.

Lemma ratios_pair_Raise_inv (p c : Row) (e : exn) :
  _ratios [p; c] = Raise e -> e = ZeroDivisionError.
Proof.
  destruct (forallb (fun d => negb (is_zero_denominator d))
                    (raw_denominators p c)) eqn:Hden.
  - destruct (ratios_pair_Ok p c Hden) as (fv & -> & _). discriminate.
  - rewrite (ratios_pair_Raise p c Hden). by intros [= <-].
Qed.

(** The remaining columns of the row [_ratios] builds. *)
Lemma ratios_pair_columns (p c : Row) (fv : FeatureVector) :
  _ratios [p; c] = Ok fv ->
  TATA fv = _div (g c "totalCurrentAssets" - g c "totalCurrentLiabilities"
                  - g c "depreciationAndAmortization")%float
                 (g c "totalAssets") None /\
  leverage fv = _div (g c "totalLiabilities") (g c "totalAssets") None /\
  profitability fv = _div (g c "netIncome") (g c "totalAssets") None /\
  liquidity fv = _div (g c "totalCurrentAssets") (g c "totalCurrentLiabilities") None /\
  EBIT_to_assets fv
  = _div (if contains c "ebit" then g c "ebit" else g c "netIncome")
         (g c "totalAssets") None /\
  soft_asset_ratio fv
  = _div (g c "totalCurrentAssets" - g c "propertyPlantEquipmentNet")%float
         (g c "totalAssets") None /\
  ROA fv = _div (g c "netIncome") (g c "totalAssets") None /\
  Prev_ROA fv = _div (g p "netIncome") (g p "totalAssets") None /\
  CFO fv = _div (g c "operatingCashFlow") (g c "totalAssets") None /\
  GrossMargin fv = _div (g c "revenue" - g c "costOfRevenue")%float (g c "revenue") None /\
  Prev_GM fv = _div (g p "revenue" - g p "costOfRevenue")%float (g p "revenue") None /\
  AssetTurn fv = _div (g c "revenue") (g c "totalAssets") None /\
  Prev_AT fv = _div (g p "revenue") (g p "totalAssets") None /\
  CurrRatio fv = _div (g c "totalCurrentAssets") (g c "totalCurrentLiabilities") None /\
  Prev_CR fv = _div (g p "totalCurrentAssets") (g p "totalCurrentLiabilities") None /\
  Shares fv = g c "weightedAverageShsOut" /\
  Prev_Shares fv = g p "weightedAverageShsOut" /\
  Prev_leverage fv = _div (g p "totalLiabilities") (g p "totalAssets") None.
Proof.
  destruct (forallb (fun d => negb (is_zero_denominator d))
                    (raw_denominators p c)) eqn:Hden;
    [| rewrite (ratios_pair_Raise p c Hden); discriminate].
  revert Hden. unfold raw_denominators, is_zero_denominator. cbn [forallb].
  rewrite !andb_true_iff, !negb_true_iff.
  intros (H1 & H2 & H3 & H4 & H5 & H6 & _).
  intros Hfv.
  eassert (Hval : _ratios [p; c] = Ok _).
  { ratios_pair p c.
    div_ok H1. div_ok H2. div_ok H2. div_ok H1. div_ok H3. div_ok H4.
    div_ok H5. div_ok H6. div_ok H1. div_ok H2. div_ok H3. div_ok H4.
    reflexivity. }
  rewrite Hval in Hfv. injection Hfv as <-.
  split_and!; reflexivity.
Qed.

(** X4: three columns of the feature row repeat others: ROA is the
    profitability column, the current ratio is the liquidity column,
    and without an "ebit" column EBIT_to_assets is the profitability
    column too; the share counts are passed through unchanged. *)
Theorem ratios_redundant_columns (p c : Row) (fv : FeatureVector) :
  _ratios [p; c] = Ok fv ->
  ROA fv = profitability fv /\
  CurrRatio fv = liquidity fv /\
  (contains c "ebit" = false -> EBIT_to_assets fv = profitability fv) /\
  Shares fv = g c "weightedAverageShsOut" /\
  Prev_Shares fv = g p "weightedAverageShsOut".
Proof.
  intros Hfv.
  destruct (ratios_pair_columns p c fv Hfv)
    as (_ & _ & Hprof & Hliq & Hebit & _ & Hroa & _ & _ & _ & _ & _ & _
        & Hcr & _ & Hsh & Hpsh & _).
  split_and!; try congruence.
  intros Hno. rewrite Hno in Hebit. congruence.
Qed.

(** X5: [_ratios] depends on the thirteen line items it reads from the
    current year and the eleven it reads from the prior year, and on
    nothing else: two frames whose rows agree on those columns give the
    same features or the same exception, whatever their dates and other
    columns. *)
Theorem ratios_ignore_other_columns (p c p' c' : Row) :
  agree_on current_columns c c' -> agree_on prior_columns p p' ->
  _ratios [p; c] = _ratios [p'; c'].
Proof.
  unfold agree_on, current_columns, prior_columns.
  rewrite !Forall_cons. intros Hc Hp. destruct_and!.
  unfold _ratios.
  rewrite (proj1 (iloc_neg_pair p c)), (proj1 (iloc_neg_pair p' c')), !bind_Ok.
  rewrite (proj2 (iloc_neg_pair p c)), (proj2 (iloc_neg_pair p' c')), !bind_Ok.
  unfold g, contains.
  repeat match goal with
         | H : items _ !! _ = items _ !! _ |- _ => rewrite H; clear H
         end.
  reflexivity.
Qed.

(** ** The fetched frame *)

Lemma string_leb_total (x y : string) :
  String.leb x y = false -> String.leb y x = true.
Proof.
  unfold String.leb. rewrite (String.compare_antisym x y).
  by destruct (String.compare y x).
Qed.

Lemma date_le_total (a b : option string) :
  date_le a b = false -> date_le b a = true.
Proof.
  destruct a as [x |], b as [y |]; cbn; try done. apply string_leb_total.
Qed.

Lemma insert_by_date_HdRel (x r : Row) (df : DataFrame) :
  not_later x r -> HdRel not_later x df -> HdRel not_later x (insert_by_date r df).
Proof.
  intros Hxr Hhd. destruct df as [| y df]; cbn [insert_by_date].
  - by constructor.
  - destruct (date_le (date r) (date y)); constructor; [done |].
    by inversion Hhd.
Qed.

Lemma insert_by_date_Sorted (r : Row) (df : DataFrame) :
  Sorted not_later df -> Sorted not_later (insert_by_date r df).
Proof.
  induction 1 as [| x df Hsorted IH Hhd]; cbn [insert_by_date].
  - repeat constructor.
  - destruct (date_le (date r) (date x)) eqn:Hrx.
    + constructor; [by constructor |]. by constructor.
    + constructor; [exact IH |].
      apply insert_by_date_HdRel; [| done].
      by apply date_le_total.
Qed.

Lemma sort_values_date_Sorted (df : DataFrame) :
  Sorted not_later (sort_values_date df).
Proof.
  induction df as [| r df IH]; [constructor |].
  cbn [sort_values_date foldr]. by apply insert_by_date_Sorted.
Qed.

Lemma fillna0_Sorted (df : DataFrame) :
  Sorted not_later df -> Sorted not_later (fillna0 df).
Proof.
  induction 1 as [| x df Hsorted IH Hhd]; [constructor |].
  unfold fillna0. cbn [fmap list_fmap]. constructor; [exact IH |].
  destruct Hhd; constructor. done.
Qed.

Lemma drop_Sorted (n : nat) (df : DataFrame) :
  Sorted not_later df -> Sorted not_later (drop n df).
Proof.
  revert df. induction n as [| n IH]; intros df Hs; [done |].
  destruct df as [| x df]; [done |]. cbn [drop]. apply IH.
  by inversion Hs.
Qed.

Lemma elem_of_insert_by_date (x r : Row) (df : DataFrame) :
  x ∈ insert_by_date r df <-> x = r \/ x ∈ df.
Proof.
  induction df as [| y df IH]; cbn [insert_by_date].
  - by rewrite elem_of_cons.
  - destruct (date_le (date r) (date y)); rewrite !elem_of_cons; [done |].
    rewrite IH. tauto.
Qed.

Lemma elem_of_sort_values_date (x : Row) (df : DataFrame) :
  x ∈ sort_values_date df <-> x ∈ df.
Proof.
  induction df as [| r df IH]; [done |].
  cbn [sort_values_date foldr]. rewrite elem_of_insert_by_date.
  fold (sort_values_date df). rewrite IH, elem_of_cons. tauto.
Qed.

(** ** What the fetched frame looks like *)

Lemma fillna0_value (x : float) : isnan (if isnan x then 0%float else x) = false.
Proof. destruct (isnan x) eqn:Hx; [reflexivity | exact Hx]. Qed.

Lemma fillna0_no_nan (df : DataFrame) : Forall no_nan (fillna0 df).
Proof.
  unfold fillna0. apply Forall_fmap, Forall_true. intros r k x. cbn.
  rewrite lookup_fmap. destruct (items r !! k) as [y |]; cbn; [| done].
  intros [= <-]. apply fillna0_value.
Qed.

Lemma fillna0_uniform (cols : gset string) (df : DataFrame) :
  uniform cols df -> uniform cols (fillna0 df).
Proof.
  unfold uniform, fillna0. rewrite Forall_fmap. intros H.
  eapply Forall_impl; [exact H |].
  intros r Hr. cbn. by rewrite dom_fmap_L.
Qed.

Lemma sort_values_date_uniform (cols : gset string) (df : DataFrame) :
  uniform cols df -> uniform cols (sort_values_date df).
Proof.
  unfold uniform. rewrite !Forall_forall. intros H r Hr.
  apply H. by apply elem_of_sort_values_date.
Qed.

Lemma columns_uniform (cols : gset string) (df : DataFrame) :
  uniform cols df -> df ≠ [] -> columns df = cols.
Proof.
  unfold columns. induction 1 as [| r df Hr Hdf IH]; [done |]. intros _.
  change (dom (items r) ∪ ⋃ ((fun r => dom (items r)) <$> df) = cols).
  rewrite Hr. destruct df as [| r' df].
  - cbn. apply (right_id_L ∅ (∪)).
  - rewrite IH by done. apply (idemp_L (∪)).
Qed.

Lemma columns_self_uniform (cols : gset string) (df : DataFrame) :
  uniform cols df -> uniform (columns df) df.
Proof.
  intros H. destruct df as [| r df]; [constructor |].
  by rewrite (columns_uniform cols (r :: df) H).
Qed.

Lemma dom_subseteq_columns (r : Row) (df : DataFrame) :
  r ∈ df -> dom (items r) ⊆ columns df.
Proof.
  intros Hr. unfold columns. intros k Hk.
  apply elem_of_union_list. exists (dom (items r)). split; [| done].
  by apply (list_elem_of_fmap_2 (fun r => dom (items r))).
Qed.

Lemma pd_DataFrame_uniform (records : list Row) :
  uniform (columns records) (pd_DataFrame records).
Proof.
  unfold uniform, pd_DataFrame. rewrite Forall_fmap. apply Forall_forall.
  intros r Hr. cbn. rewrite dom_union_L, dom_gset_to_gmap.
  apply subseteq_union_1_L. by apply dom_subseteq_columns.
Qed.

Lemma reindex_uniform (n : nat) (df : DataFrame) :
  uniform (columns df) df -> uniform (columns df) (reindex n df).
Proof.
  intros H. unfold uniform, reindex. rewrite Forall_fmap. apply Forall_forall.
  intros i _. cbn. destruct (df !! i) as [r |] eqn:Hi; cbn.
  - unfold uniform in H. rewrite Forall_forall in H. apply H.
    by apply list_elem_of_lookup_2 in Hi.
  - apply dom_gset_to_gmap.
Qed.

Lemma zip_with_join_uniform (ca cb : gset string) (a b : DataFrame) :
  uniform ca a -> uniform cb b -> uniform (ca ∪ cb) (zip_with join_row a b).
Proof.
  intros Ha. revert b. induction Ha as [| x a Hx Ha IH]; intros b Hb; [constructor |].
  destruct Hb as [| y b Hy Hb]; [constructor |].
  cbn [zip_with]. constructor; [| by apply IH].
  cbn. by rewrite dom_union_L, Hx, Hy.
Qed.

(** Columns of the joined frame: those of every frame. *)
Lemma concat_axis1_uniform (frames : list DataFrame) :
  Forall (fun df => uniform (columns df) df) frames ->
  uniform (⋃ (columns <$> frames)) (concat_axis1 frames).
Proof.
  unfold concat_axis1. generalize (max_list (length <$> frames)) as n. intros n.
  induction 1 as [| df frames Hdf Hframes IH]; cbn [foldr fmap list_fmap union_list].
  - apply Forall_replicate. cbn. apply dom_gset_to_gmap.
  - apply zip_with_join_uniform; [by apply reindex_uniform | exact IH].
Qed.

Section FetchedFrame.

Variable fetch : string -> list Row * list Row * list Row.

(** The frame [_two_years] returns is the last two rows of the joined,
    sorted and filled frame. *)
Lemma two_years_Some_inv (tkr : string) (df2 : DataFrame) :
  _two_years fetch tkr = Some df2 ->
  exists inc bal cf,
    fetch tkr = (inc, bal, cf) /\
    df2 = tail 2 (fillna0 (sort_values_date
            (concat_axis1 [pd_DataFrame inc; pd_DataFrame bal; pd_DataFrame cf]))).
Proof.
  unfold _two_years. destruct (fetch tkr) as [[inc bal] cf].
  destruct (_ || _); [discriminate |].
  destruct (decide _); [| discriminate].
  intros [= <-]. by exists inc, bal, cf.
Qed.

Lemma two_years_pair (tkr : string) (df2 : DataFrame) :
  _two_years fetch tkr = Some df2 -> exists p c, df2 = [p; c].
Proof.
  intros H. apply two_years_length in H.
  destruct df2 as [| p [| c [| x df]]]; try discriminate. by exists p, c.
Qed.

(** X6: [_two_years] returns a frame exactly when none of the three
    statement lists is empty and at least one of them has two records or
    more.  One empty statement is enough for [None], and one statement
    with two records is enough for a frame. *)
Theorem two_years_returns_iff (tkr : string) (inc bal cf : list Row) :
  fetch tkr = (inc, bal, cf) ->
  (is_Some (_two_years fetch tkr) <->
   inc <> [] /\ bal <> [] /\ cf <> [] /\
   (2 <= length inc \/ 2 <= length bal \/ 2 <= length cf)%nat).
Proof.
  intros Hfetch. unfold _two_years. rewrite Hfetch.
  rewrite length_fillna0, length_sort_values_date, length_concat_axis1.
  cbn [fmap list_fmap max_list]. rewrite !length_pd_DataFrame. unfold id.
  destruct inc as [| i inc]; [cbn; split; [by intros [? [=]] | by intros [? _]] |].
  destruct bal as [| b bal]; [cbn; split; [by intros [? [=]] | by intros (_ & ? & _)] |].
  destruct cf as [| c cf]; [cbn; split; [by intros [? [=]] | by intros (_ & _ & ? & _)] |].
  cbn [bool_decide orb]. 
  rewrite !bool_decide_eq_false_2 by done. cbn [orb].
  destruct (decide _) as [Hlen | Hlen].
  - split; [| by eexists]. intros _. split_and!; try done. lia.
  - split; [by intros [? [=]] |]. intros (_ & _ & _ & H). lia.
Qed.

(** X7: a frame [_two_years] returns has exactly two rows in
    chronological order, so the row [_ratios] takes as current
    ([iloc[-1]]) is not earlier than the one it takes as prior
    ([iloc[-2]]), in whatever order the provider listed the records. *)
Theorem two_years_chronological (tkr : string) (df2 : DataFrame) :
  _two_years fetch tkr = Some df2 ->
  exists p c, df2 = [p; c] /\ iloc_neg 2 df2 = Ok p /\ iloc_neg 1 df2 = Ok c /\
    date_le (date p) (date c) = true.
Proof.
  intros H. destruct (two_years_pair tkr df2 H) as (p & c & ->).
  exists p, c. split_and!; try reflexivity.
  destruct (two_years_Some_inv tkr _ H) as (inc & bal & cf & _ & Hdf).
  assert (Hs : Sorted not_later [p; c]).
  { rewrite Hdf. unfold tail. apply drop_Sorted, fillna0_Sorted,
      sort_values_date_Sorted. }
  inversion Hs as [| ? ? _ Hhd]; subst. by inversion Hhd.
Qed.

(** X8: in a frame [_two_years] returns both rows have the same columns,
    so a column test such as ["ebit" in c] has the same answer for both
    years, and no line item [_ratios] can read from it is NaN. *)
Theorem two_years_filled_same_columns (tkr : string) (df2 : DataFrame) :
  _two_years fetch tkr = Some df2 ->
  exists p c, df2 = [p; c] /\
    dom (items p) = dom (items c) /\
    (forall k, contains p k = contains c k) /\
    (forall k, isnan (g p k) = false /\ isnan (g c k) = false).
Proof.
  intros H. destruct (two_years_pair tkr df2 H) as (p & c & ->).
  exists p, c. split; [done |].
  destruct (two_years_Some_inv tkr _ H) as (inc & bal & cf & _ & Hdf).
  assert (Hnan : Forall no_nan [p; c]).
  { rewrite Hdf. unfold tail. apply Forall_drop, fillna0_no_nan. }
  assert (Hcols : exists cols, uniform cols [p; c]) .
  { eexists. rewrite Hdf. unfold tail. apply Forall_drop.
    apply fillna0_uniform, sort_values_date_uniform, concat_axis1_uniform.
    repeat constructor;
      apply (columns_self_uniform _ _ (pd_DataFrame_uniform _)). }
  destruct Hcols as [cols Hcols].
  apply Forall_cons in Hcols as [Hp Hc]. apply Forall_cons in Hc as [Hc _].
  apply Forall_cons in Hnan as [Np Nc]. apply Forall_cons in Nc as [Nc _].
  assert (Hdom : dom (items p) = dom (items c)) by congruence.
  split_and!.
  - exact Hdom.
  - intros k. unfold contains. apply bool_decide_ext.
    rewrite <- !elem_of_dom. by rewrite Hdom.
  - intros k. unfold g. split.
    + destruct (items p !! k) as [x |] eqn:Hk; [by apply (Np k) | reflexivity].
    + destruct (items c !! k) as [x |] eqn:Hk; [by apply (Nc k) | reflexivity].
Qed.

End FetchedFrame.

Lemma date_le_antisym (a b : option string) :
  date_le a b = true -> date_le b a = true -> a = b.
Proof.
  destruct a as [x |], b as [y |]; cbn; try done.
  intros H1 H2. f_equal. by apply String.leb_antisym.
Qed.

(** Sorting two rows with different dates does not depend on the order
    they come in. *)
Lemma sort_values_date_pair (x y : Row) :
  date x <> date y -> sort_values_date [x; y] = sort_values_date [y; x].
Proof.
  intros Hne. cbn [sort_values_date foldr insert_by_date].
  destruct (date_le (date x) (date y)) eqn:Hxy,
           (date_le (date y) (date x)) eqn:Hyx; try reflexivity.
  - destruct Hne. by apply date_le_antisym.
  - apply date_le_total in Hxy. congruence.
Qed.

Lemma columns_pair_comm (x y : Row) : columns [x; y] = columns [y; x].
Proof.
  unfold columns. rewrite !fmap_cons, fmap_nil, !union_list_cons, union_list_nil.
  rewrite !(right_id_L ∅ (∪)). apply (comm_L (∪)).
Qed.

Lemma concat_axis1_pairs (x1 x2 y1 y2 z1 z2 : Row) :
  concat_axis1 [[x1; x2]; [y1; y2]; [z1; z2]]
  = [ join_row x1 (join_row y1 (join_row z1 (nan_row ∅)));
      join_row x2 (join_row y2 (join_row z2 (nan_row ∅))) ].
Proof. reflexivity. Qed.

Lemma pd_DataFrame_pair (x y : Row) :
  pd_DataFrame [x; y]
  = [ {| date := date x; items := items x ∪ gset_to_gmap nan (columns [x; y]) |};
      {| date := date y; items := items y ∪ gset_to_gmap nan (columns [x; y]) |} ].
Proof. reflexivity. Qed.

(** X13: when each statement has two records, listing them oldest first
    or newest first gives the same frame, as long as the three
    statements use the same order and the two income-statement dates
    differ. *)
Theorem two_years_order_independent
    (fetch fetch' : string -> list Row * list Row * list Row)
    (tkr : string) (a1 a2 b1 b2 c1 c2 : Row) :
  fetch tkr = ([a1; a2], [b1; b2], [c1; c2]) ->
  fetch' tkr = ([a2; a1], [b2; b1], [c2; c1]) ->
  date a1 <> date a2 ->
  _two_years fetch tkr = _two_years fetch' tkr.
Proof.
  intros Hf Hf' Hne. unfold _two_years. rewrite Hf, Hf'.
  cbn [bool_decide orb]. rewrite !bool_decide_eq_false_2 by done. cbn [orb].
  rewrite !pd_DataFrame_pair, !concat_axis1_pairs.
  rewrite (columns_pair_comm a2 a1), (columns_pair_comm b2 b1),
    (columns_pair_comm c2 c1).
  by rewrite sort_values_date_pair.
Qed.

(** ** Failures of the dispatcher, and its caller *)

Section DispatcherFailures.

Variable fetch : string -> list Row * list Row * list Row.
Variable shap_values : Type.
Variable predict_proba : FeatureVector -> float.
Variable TreeExplainer : FeatureVector -> shap_values.

(** X9: [predict] raises in two ways only.  [ZeroDivisionError] comes
    from the ratio engine, for every method name, recognised or not;
    [ValueError("Unknown method")] is raised only after the features
    were computed and only for a method outside the three names.  It
    never raises [IndexError]: the fetched frame always has two rows. *)
Theorem predict_exceptions (tkr : string) (method : option string) (e : exn) :
  predict fetch shap_values predict_proba TreeExplainer tkr method = Raise e ->
  exists p c, _two_years fetch tkr = Some [p; c] /\
    ((e = ZeroDivisionError /\ _ratios [p; c] = Raise ZeroDivisionError) \/
     (e = ValueError "Unknown method" /\ (exists fv, _ratios [p; c] = Ok fv) /\
      ~ In (arg_default "CatBoost"%string method)
           [ "CatBoost"; "Beneish M-Score"; "Piotroski F-Score" ]%string)).
Proof.
  intros H.
  destruct (_two_years fetch tkr) as [df2 |] eqn:Hdf;
    [| unfold predict, predict_with in H; rewrite Hdf in H; discriminate].
  destruct (two_years_pair fetch tkr df2 Hdf) as (p & c & ->).
  exists p, c. split; [done |].
  destruct (_ratios [p; c]) as [fv | e'] eqn:Hfv.
  - right.
    rewrite (predict_dispatch fetch shap_values predict_proba TreeExplainer
               tkr method [p; c] fv Hdf Hfv) in H.
    cbv zeta in H.
    destruct (String.eqb_spec (arg_default "CatBoost"%string method) "CatBoost");
      [discriminate |].
    destruct (String.eqb_spec (arg_default "CatBoost"%string method) "Beneish M-Score");
      [discriminate |].
    destruct (String.eqb_spec (arg_default "CatBoost"%string method) "Piotroski F-Score");
      [discriminate |].
    injection H as <-. split_and!; [done | by exists fv |].
    cbn [In]. intros [? | [? | [? | []]]]; congruence.
  - left. unfold predict, predict_with in H. rewrite Hdf, Hfv in H.
    cbn [mbind result_bind] in H. injection H as <-.
    pose proof (ratios_pair_Raise_inv p c e' Hfv) as ->. done.
Qed.

(** X11: for each of the three names the Fraud Detection tab offers, the
    key the tab passes to [predict] is a method [predict] knows, and the
    result holds what the tab's branch reads: probability and
    explanation for the trained model, ["M-Score"] and ["flag"] for
    Beneish, ["F-Score"] and ["flag"] for Piotroski. *)
Theorem render_method_key (tkr meth : string) (df2 : DataFrame) (fv : FeatureVector) :
  In meth method_options ->
  _two_years fetch tkr = Some df2 -> _ratios df2 = Ok fv ->
  exists res,
    predict fetch shap_values predict_proba TreeExplainer tkr (Some (method_key meth))
    = Ok (Some res) /\
    feats res = fv /\
    (meth = "Custom Trained Model"%string ->
       prob res = Some (predict_proba fv) /\ shap res = Some (TreeExplainer fv)) /\
    (meth = "Beneish M-Score"%string ->
       extra_item res "M-Score" = Some (VFloat (fst (beneish_score fv))) /\
       extra_item res "flag" = Some (VBool (snd (beneish_score fv)))) /\
    (meth = "Piotroski F-Score"%string ->
       extra_item res "F-Score" = Some (VInt (fst (piotroski_score fv))) /\
       extra_item res "flag" = Some (VBool (snd (piotroski_score fv)))).
Proof.
  intros Hmeth Hdf Hfv.
  rewrite (predict_dispatch fetch shap_values predict_proba TreeExplainer
             tkr _ df2 fv Hdf Hfv).
  cbn [In method_options] in Hmeth.
  destruct Hmeth as [<- | [<- | [<- | []]]]; cbn; eexists;
    (split; [reflexivity |]); cbn; split_and!; done.
Qed.

(** The display name itself is not a method [predict] knows. *)
Lemma predict_display_name (tkr : string) (df2 : DataFrame) (fv : FeatureVector) :
  _two_years fetch tkr = Some df2 -> _ratios df2 = Ok fv ->
  predict fetch shap_values predict_proba TreeExplainer tkr
          (Some "Custom Trained Model"%string)
  = Raise (ValueError "Unknown method").
Proof.
  intros Hdf Hfv.
  by rewrite (predict_dispatch fetch shap_values predict_proba TreeExplainer
                tkr _ df2 fv Hdf Hfv).
Qed.

End DispatcherFailures.

(** ** Rule scorers on partial data *)

(** The ninth summand alone already gives a point. *)
Lemma piotroski_share_point (r : FeatureVector) :
  (Shares r <=? Prev_Shares r)%float = true -> 1 <= fst (piotroski_score r).
Proof.
  intros H. unfold piotroski_score. cbn [fst]. rewrite H.
  assert (Hb : forall b, 0 <= Z.b2z b) by (by intros []).
  repeat match goal with
         | |- context [Z.b2z ?b] =>
             lazymatch b with
             | true => fail
             | _ => pose proof (Hb b); generalize dependent (Z.b2z b); intros
             end
         end.
  change (Z.b2z true) with 1. lia.
Qed.

(** X10: when neither year reports [weightedAverageShsOut], both share
    counts default to [0.0], the ninth test [Shares <= Prev_Shares]
    holds and the F-Score is at least 1. *)
Theorem piotroski_missing_shares_point (p c : Row) (fv : FeatureVector) :
  items c !! "weightedAverageShsOut"%string = None ->
  items p !! "weightedAverageShsOut"%string = None ->
  _ratios [p; c] = Ok fv ->
  Shares fv = 0%float /\ Prev_Shares fv = 0%float /\
  1 <= fst (piotroski_score fv).
Proof.
  intros Hc Hp Hfv.
  destruct (ratios_pair_columns p c fv Hfv)
    as (_ & _ & _ & _ & _ & _ & _ & _ & _ & _ & _ & _ & _ & _ & _ & Hs & Hps & _).
  unfold g in Hs, Hps. rewrite Hc in Hs. rewrite Hp in Hps. cbn in Hs, Hps.
  split_and!; [done | done |].
  apply piotroski_share_point. by rewrite Hs, Hps.
Qed.


(** ** 10-K text chunks and filing years *)

Lemma range_step_count (w n : nat) :
  (0 < w)%nat -> (n <= (n + w - 1) / w * w < n + w)%nat.
Proof.
  intros Hw.
  pose proof (Nat.div_mod_eq (n + w - 1) w) as Hdm.
  pose proof (Nat.mod_upper_bound (n + w - 1) w ltac:(lia)) as Hub.
  nia.
Qed.

Lemma concat_slices (w : nat) (words : list string) (k : nat) :
  concat ((fun j => take w (drop (j * w) words)) <$> seq 0 k)
  = take (k * w) words.
Proof.
  induction k as [| k IH]; [done |].
  rewrite seq_S, fmap_app, concat_app, IH. cbn [fmap list_fmap concat].
  rewrite app_nil_r, take_take_drop. f_equal. cbn [Nat.mul Nat.add]. lia.
Qed.

(** Length of the [j]-th slice of width [w] when [count] slices cover
    the words. *)
Lemma slice_length (w : nat) (words : list string) (j : nat) :
  (0 < w)%nat -> (j < (length words + w - 1) / w)%nat ->
  (1 <= length (take w (drop (j * w) words)) <= w)%nat /\
  ((S j < (length words + w - 1) / w)%nat ->
   length (take w (drop (j * w) words)) = w).
Proof.
  intros Hw Hj. pose proof (range_step_count w (length words) Hw) as Hk.
  rewrite length_take, length_drop.
  set (k := ((length words + w - 1) / w)%nat) in *.
  assert (S j * w <= k * w)%nat by (apply Nat.mul_le_mono_r; lia).
  cbn [Nat.mul] in *. split; [lia |].
  intros Hj'.
  assert (S (S j) * w <= k * w)%nat by (apply Nat.mul_le_mono_r; lia).
  cbn [Nat.mul] in *. lia.
Qed.

Lemma chunk_words_alt (words : list string) :
  chunk_words words
  = (fun j => take CHUNK_W (drop (j * CHUNK_W) words))
    <$> seq 0 ((length words + CHUNK_W - 1) / CHUNK_W)%nat.
Proof.
  unfold chunk_words, range_step, slice. rewrite <- list_fmap_compose.
  apply list_fmap_ext. intros _ j _. unfold compose. f_equal. lia.
Qed.

(** X14: the chunks of a text split its words into consecutive parts:
    joined back in order the parts give the words, each part has between
    1 and 220 words, every part but the last has exactly 220, and there
    are ceil(n / 220) chunks for n words (none for an empty text). *)
Theorem chunks_partition_words (words : list string) :
  chunks words = String.concat " " <$> chunk_words words /\
  concat (chunk_words words) = words /\
  Forall (fun part => (1 <= length part <= CHUNK_W)%nat) (chunk_words words) /\
  (length (chunks words) = (length words + CHUNK_W - 1) / CHUNK_W)%nat /\
  (forall i part, chunk_words words !! i = Some part ->
     (S i < length (chunks words))%nat -> length part = CHUNK_W).
Proof.
  assert (Hw : (0 < CHUNK_W)%nat) by (unfold CHUNK_W; lia).
  pose proof (range_step_count CHUNK_W (length words) Hw) as Hk.
  assert (Hlen : (length (chunks words) = (length words + CHUNK_W - 1) / CHUNK_W)%nat).
  { unfold chunks, range_step. by rewrite !length_fmap, length_seq. }
  split_and!.
  - unfold chunks, chunk_words. by rewrite <- list_fmap_compose.
  - rewrite chunk_words_alt, concat_slices. apply take_ge. lia.
  - rewrite chunk_words_alt. apply Forall_fmap, Forall_forall.
    intros j Hj. apply elem_of_seq in Hj.
    apply (slice_length CHUNK_W words j Hw). lia.
  - exact Hlen.
  - intros i part Hi Hlast. rewrite Hlen in Hlast.
    rewrite chunk_words_alt, list_lookup_fmap in Hi.
    destruct (seq 0 _ !! i) as [j |] eqn:Hj; [| discriminate].
    apply lookup_seq in Hj as [-> Hj]. injection Hi as <-.
    by apply (slice_length CHUNK_W words (0 + i) Hw).
Qed.

(** X15: for two-digit years the filing year has the given last two
    digits and lies in the hundred years that end with the current year
    [2000 + current_yy]; it is the only such year. *)
Theorem filing_year_window (current_yy yy : Z) :
  0 <= current_yy <= 99 -> 0 <= yy <= 99 ->
  let year := filing_year current_yy yy in
  year mod 100 = yy /\
  2000 + current_yy - 99 <= year <= 2000 + current_yy /\
  (forall y, y mod 100 = yy ->
     2000 + current_yy - 99 <= y <= 2000 + current_yy -> y = year).
Proof.
  intros Hc Hy. unfold filing_year. cbv zeta.
  destruct (Z.leb_spec yy current_yy).
  - split_and!.
    + replace (2000 + yy) with (yy + 20 * 100) by lia.
      rewrite Z.mod_add by lia. apply Z.mod_small. lia.
    + lia.
    + lia.
    + intros y Hmod Hrange. 
      pose proof (Z.div_mod y 100 ltac:(lia)). 
      assert (y / 100 = 20 \/ y / 100 = 19 \/ y/100 < 19 \/ y/100 > 20) by lia. lia.
  - split_and!.
    + replace (1900 + yy) with (yy + 19 * 100) by lia.
      rewrite Z.mod_add by lia. apply Z.mod_small. lia.
    + lia.
    + lia.
    + intros y Hmod Hrange.
      pose proof (Z.div_mod y 100 ltac:(lia)). lia.
Qed.

(** ** Question answering over a long context *)

Section QAProperties.

Variable nlp : string -> string -> string * float.
Variable split : string -> list string.

(** X16: [qa] raises [ValueError] exactly when [max_chunk] is 0 or 1 and
    the context has more words than that (the step [max_chunk // 2] of
    the window loop is then zero); a negative [max_chunk] gives the
    empty answer; a context of at most [max_chunk] words gives the
    pipeline's answer on the whole context; the default of 500 never
    raises. *)
Theorem qa_small_max_chunk (question context : string) (max_chunk : Z) :
  (qa nlp split question context (Some max_chunk)
   = Raise (ValueError "range() arg 3 must not be zero")
   <-> (max_chunk = 0 \/ max_chunk = 1) /\ max_chunk < Z.of_nat (length (split context))) /\
  (max_chunk < 0 -> qa nlp split question context (Some max_chunk) = Ok ""%string) /\
  (Z.of_nat (length (split context)) <= max_chunk ->
   qa nlp split question context (Some max_chunk) = Ok (fst (nlp question context))) /\
  (forall e, qa nlp split question context None <> Raise e).
Proof.
  unfold qa, range0. cbn [arg_default].
  split_and!.
  - destruct (Z.leb_spec (Z.of_nat (length (split context))) max_chunk) as [Hle | Hgt].
    + split; [discriminate | lia].
    + destruct (Z.eqb_spec (max_chunk `div` 2) 0) as [Hz | Hnz].
      * cbn. split; [intros _ | done]. split; [| done].
        apply Z.div_small_iff in Hz; lia.
      * destruct (max_chunk `div` 2 <? 0); cbn; (split; [discriminate |]).
        -- intros [[-> | ->] _]; by destruct Hnz.
        -- intros [[-> | ->] _]; by destruct Hnz.
  - intros Hneg.
    destruct (Z.leb_spec (Z.of_nat (length (split context))) max_chunk); [lia |].
    assert (max_chunk `div` 2 < 0) by (apply Z.div_lt_upper_bound; lia).
    destruct (Z.eqb_spec (max_chunk `div` 2) 0); [lia |].
    destruct (Z.ltb_spec (max_chunk `div` 2) 0); [done | lia].
  - intros Hle. by destruct (Z.leb_spec (Z.of_nat (length (split context))) max_chunk); [| lia].
  - intros e. destruct (_ <=? 500); [discriminate |].
    change (500 `div` 2) with 250. cbn. discriminate.
Qed.

Lemma elem_of_range_step (n step i : nat) :
  i ∈ range_step n step <-> exists j, (j < (n + step - 1) / step)%nat /\ i = (j * step)%nat.
Proof.
  unfold range_step. rewrite list_elem_of_fmap. split.
  - intros (j & -> & Hj). apply elem_of_seq in Hj. exists j. split; [lia | done].
  - intros (j & Hj & ->). exists j. split; [done |]. apply elem_of_seq. lia.
Qed.

(** The answer kept by the loop is the initial one or comes from one of
    the windows visited. *)
Lemma qa_loop_answer (question : string) (words : list string) (max_chunk : Z)
    (starts : list nat) (acc : string * float) :
  let best := fst (foldl (qa_step nlp question words max_chunk) acc starts) in
  best = fst acc \/
  exists i, i ∈ starts /\
    best = fst (nlp question
                  (String.concat " " (slice i (i + Z.to_nat max_chunk) words))).
Proof.
  cbv zeta. revert acc. induction starts as [| i starts IH]; intros acc; [by left |].
  cbn [foldl]. destruct (IH (qa_step nlp question words max_chunk acc i)) as [H | (i' & Hi' & H)].
  - rewrite H. unfold qa_step. destruct acc as [best score].
    destruct (gt _ score); cbn [fst]; [right | by left].
    exists i. split; [apply elem_of_cons; by left | done].
  - right. exists i'. split; [apply elem_of_cons; by right | done].
Qed.

(** X17: for [max_chunk >= 2] and a longer context, [qa] runs the
    pipeline on ceil(n / (max_chunk // 2)) windows; every word of the
    context lies in one of them, and the answer returned is the empty
    string or the pipeline's answer on one of the windows. *)
Theorem qa_windows_cover (question context : string) (max_chunk : Z) :
  2 <= max_chunk < Z.of_nat (length (split context)) ->
  let words := split context in
  let step := Z.to_nat (max_chunk `div` 2) in
  let starts := range_step (length words) step in
  qa nlp split question context (Some max_chunk)
  = Ok (fst (foldl (qa_step nlp question words max_chunk) (""%string, (-1)%float) starts)) /\
  (length starts = (length words + step - 1) / step)%nat /\
  (forall k, (k < length words)%nat ->
     exists i, i ∈ starts /\ (i <= k < i + Z.to_nat max_chunk)%nat) /\
  (forall answer, qa nlp split question context (Some max_chunk) = Ok answer ->
     answer = ""%string \/
     exists i, i ∈ starts /\
       answer = fst (nlp question
                       (String.concat " " (slice i (i + Z.to_nat max_chunk) words)))).
Proof.
  intros [Hlo Hhi]. cbv zeta.
  assert (Hstep : 1 <= max_chunk `div` 2) by (apply Z.div_le_lower_bound; lia).
  assert (Hstep2 : 2 * (max_chunk `div` 2) <= max_chunk)
    by (apply Z.mul_div_le; lia).
  assert (Hqa : qa nlp split question context (Some max_chunk)
    = Ok (fst (foldl (qa_step nlp question (split context) max_chunk)
                     (""%string, (-1)%float)
                     (range_step (length (split context))
                                 (Z.to_nat (max_chunk `div` 2)))))).
  { unfold qa, range0. cbn [arg_default].
    destruct (Z.leb_spec (Z.of_nat (length (split context))) max_chunk); [lia |].
    destruct (Z.eqb_spec (max_chunk `div` 2) 0); [lia |].
    destruct (Z.ltb_spec (max_chunk `div` 2) 0); [lia | done]. }
  set (step := Z.to_nat (max_chunk `div` 2)) in *.
  assert (Hs : (0 < step)%nat) by (unfold step; lia).
  split_and!.
  - exact Hqa.
  - unfold range_step. by rewrite length_fmap, length_seq.
  - intros k Hk. exists ((k / step) * step)%nat. split.
    + apply elem_of_range_step. exists (k / step)%nat. split; [| done].
      apply Nat.Div0.div_lt_upper_bound.
      pose proof (range_step_count step (length (split context)) Hs). lia.
    + pose proof (Nat.div_mod_eq k step).
      pose proof (Nat.mod_upper_bound k step ltac:(lia)).
      assert (step <= Z.to_nat max_chunk)%nat by (unfold step; lia). lia.
  - intros answer. rewrite Hqa. intros [= <-].
    apply (qa_loop_answer question (split context) max_chunk _ (""%string, (-1)%float)).
Qed.

End QAProperties.

(** ** Zero denominators that [_div] absorbs *)

(** X12: a zero or missing current-liabilities figure does not make the
    engine fail: when it returns, liquidity and the current ratio are
    the fallback [0.0]; likewise the prior current ratio for the prior
    year. *)
Theorem ratios_absorbs_zero_current_liabilities (p c : Row) (fv : FeatureVector) :
  _ratios [p; c] = Ok fv ->
  ((g c "totalCurrentLiabilities" =? 0)%float = true ->
   liquidity fv = 0%float /\ CurrRatio fv = 0%float) /\
  ((g p "totalCurrentLiabilities" =? 0)%float = true -> Prev_CR fv = 0%float) /\
  (items c !! "totalCurrentLiabilities"%string = None ->
   liquidity fv = 0%float /\ CurrRatio fv = 0%float).
Proof.
  intros Hfv.
  destruct (ratios_pair_columns p c fv Hfv)
    as (_ & _ & _ & Hliq & _ & _ & _ & _ & _ & _ & _ & _ & _ & Hcr & Hpcr & _).
  rewrite Hliq, Hcr, Hpcr, !_div_unfold.
  split_and!.
  - by intros ->.
  - by intros ->.
  - intros Hnone.
    assert (Hz : (g c "totalCurrentLiabilities" =? 0)%float = true)
      by (unfold g; rewrite Hnone; reflexivity).
    by rewrite Hz.
Qed.

(** * The further properties at work *)

Lemma ratios_redundant_columns_witness :
  ROA scenario_features = profitability scenario_features /\
  CurrRatio scenario_features = liquidity scenario_features /\
  EBIT_to_assets scenario_features = profitability scenario_features.
Proof.
  destruct (ratios_redundant_columns scenario_prior scenario_current
              scenario_features)
    as (Hroa & Hcr & Hebit & _).
  - vm_compute. reflexivity.
  - split; [exact Hroa |]. split; [exact Hcr |]. apply Hebit. reflexivity.
Defined.

Lemma ratios_ignore_other_columns_witness :
  _ratios [scenario_prior; scenario_current]
  = _ratios [scenario_prior; annotated_current].
Proof.
  apply (ratios_ignore_other_columns
           scenario_prior scenario_current scenario_prior annotated_current).
  - unfold agree_on, current_columns.
    repeat (apply Forall_cons; split; [vm_compute; reflexivity |]).
    apply Forall_nil_2.
  - unfold agree_on, prior_columns.
    repeat (apply Forall_cons; split; [reflexivity |]).
    apply Forall_nil_2.
Defined.

Lemma two_years_returns_iff_witness :
  is_Some (_two_years scenario_fetch "ACME") /\
  ~ is_Some (_two_years scenario_fetch "NEWCO").
Proof.
  split.
  - apply (two_years_returns_iff scenario_fetch "ACME"
             ((fun y => statement y income_items) <$> [scenario_current; scenario_prior])
             ((fun y => statement y balance_items) <$> [scenario_current; scenario_prior])
             ((fun y => statement y cash_flow_items) <$> [scenario_current; scenario_prior])).
    + reflexivity.
    + split_and!; [discriminate | discriminate | discriminate |].
      left. cbn [fmap list_fmap length]. lia.
  - intros Hsome.
    apply (two_years_returns_iff scenario_fetch "NEWCO"
             ((fun y => statement y income_items) <$> [scenario_current])
             ((fun y => statement y balance_items) <$> [scenario_current])
             ((fun y => statement y cash_flow_items) <$> [scenario_current]))
      in Hsome; [| reflexivity].
    destruct Hsome as (_ & _ & _ & Hlen).
    cbn [fmap list_fmap length] in Hlen. lia.
Defined.

Lemma two_years_chronological_witness :
  exists p c, [scenario_prior; scenario_current] = [p; c] /\
    iloc_neg 2 [scenario_prior; scenario_current] = Ok p /\
    iloc_neg 1 [scenario_prior; scenario_current] = Ok c /\
    date_le (date p) (date c) = true.
Proof.
  apply (two_years_chronological scenario_fetch "ACME"
           [scenario_prior; scenario_current]).
  vm_compute. reflexivity.
Defined.

Lemma two_years_filled_same_columns_witness :
  exists p c, [scenario_prior; scenario_current] = [p; c] /\
    dom (items p) = dom (items c) /\
    (forall k, contains p k = contains c k) /\
    (forall k, isnan (g p k) = false /\ isnan (g c k) = false).
Proof.
  apply (two_years_filled_same_columns scenario_fetch "ACME"
           [scenario_prior; scenario_current]).
  vm_compute. reflexivity.
Defined.

Lemma two_years_order_independent_witness :
  _two_years scenario_fetch "ACME" = _two_years oldest_first_fetch "ACME".
Proof.
  apply (two_years_order_independent scenario_fetch oldest_first_fetch "ACME"
           (statement scenario_current income_items)
           (statement scenario_prior income_items)
           (statement scenario_current balance_items)
           (statement scenario_prior balance_items)
           (statement scenario_current cash_flow_items)
           (statement scenario_prior cash_flow_items)).
  - reflexivity.
  - reflexivity.
  - discriminate.
Defined.

Lemma predict_exceptions_witness :
  exists p c, _two_years scenario_fetch "BIOTECH" = Some [p; c] /\
    ((ZeroDivisionError = ZeroDivisionError /\
      _ratios [p; c] = Raise ZeroDivisionError) \/
     (ZeroDivisionError = ValueError "Unknown method" /\
      (exists fv, _ratios [p; c] = Ok fv) /\
      ~ In (arg_default "CatBoost"%string (Some "Altman Z-Score"%string))
           [ "CatBoost"; "Beneish M-Score"; "Piotroski F-Score" ]%string)).
Proof.
  apply (predict_exceptions scenario_fetch (list float) scenario_proba
           scenario_explainer "BIOTECH" (Some "Altman Z-Score"%string)
           ZeroDivisionError).
  vm_compute. reflexivity.
Defined.

Lemma render_method_key_witness :
  exists res,
    predict scenario_fetch (list float) scenario_proba scenario_explainer
            "ACME" (Some (method_key "Custom Trained Model"))
    = Ok (Some res) /\
    prob res = Some 0.5%float.
Proof.
  destruct (render_method_key scenario_fetch (list float) scenario_proba
              scenario_explainer "ACME" "Custom Trained Model"
              [scenario_prior; scenario_current] scenario_features)
    as (res & Hres & _ & Hcb & _).
  - left. reflexivity.
  - vm_compute. reflexivity.
  - vm_compute. reflexivity.
  - exists res. split; [exact Hres |]. by destruct Hcb.
Defined.

Lemma piotroski_missing_shares_point_witness :
  Shares unshared_features = 0%float /\
  Prev_Shares unshared_features = 0%float /\
  1 <= fst (piotroski_score unshared_features).
Proof.
  apply (piotroski_missing_shares_point
           (unshared scenario_prior) (unshared scenario_current)).
  - reflexivity.
  - reflexivity.
  - vm_compute. reflexivity.
Defined.

Lemma ratios_absorbs_zero_current_liabilities_witness :
  liquidity debt_free_features = 0%float /\
  CurrRatio debt_free_features = 0%float.
Proof.
  destruct (ratios_absorbs_zero_current_liabilities
              scenario_prior debt_free_current debt_free_features)
    as (Hzero & _ & _).
  - vm_compute. reflexivity.
  - apply Hzero. reflexivity.
Defined.

Lemma filing_year_window_witness :
  filing_year 26 98 = 1998 /\ filing_year 26 7 = 2007 /\
  1927 <= filing_year 26 98 <= 2026.
Proof.
  destruct (filing_year_window 26 98) as (_ & Hrange & Huniq); [lia | lia |].
  destruct (filing_year_window 26 7) as (_ & Hrange' & Huniq'); [lia | lia |].
  split_and!.
  - symmetry. apply Huniq; [reflexivity | lia].
  - symmetry. apply Huniq'; [reflexivity | lia].
  - lia.
  - lia.
Defined.

Lemma qa_windows_cover_witness :
  qa echo_nlp three_words "q" "total net income" (Some 2) = Ok "total net"%string /\
  forall k, (k < 3)%nat ->
    exists i, i ∈ range_step 3 1 /\ (i <= k < i + 2)%nat.
Proof.
  destruct (qa_windows_cover echo_nlp three_words "q" "total net income" 2)
    as (Hqa & _ & Hcover & _).
  - cbn [three_words length]. lia.
  - split; [rewrite Hqa; vm_compute; reflexivity | exact Hcover].
Defined.

(** ** Random portfolios of the Optimizer tab *)

Section MarkowitzProperties.

Variable dirichlet : nat -> list float.
Variable expected_return : list float -> float.
Variable variance : list float -> float.
Variable tickers : list string.
Variable num_portfolios : nat.
Variables rf min_weight max_weight : float.

Local Abbreviation loop :=
  (markowitz_loop dirichlet expected_return variance tickers num_portfolios
                  rf min_weight max_weight).
Local Abbreviation portfolios :=
  (markowitz_random_portfolios dirichlet expected_return variance tickers
                               num_portfolios rf min_weight max_weight).
Local Abbreviation row_of := (portfolio_row expected_return variance tickers rf).
Local Abbreviation accepted := (within_bounds min_weight max_weight).

Lemma markowitz_loop_spec (fuel : nat) (results : list Portfolio) (attempts : nat) :
  (attempts + fuel <= num_portfolios * 10)%nat ->
  (length results <= num_portfolios)%nat ->
  loop fuel results attempts
  = results ++ (row_of <$>
                take (num_portfolios - length results)
                     (List.filter (within_bounds min_weight max_weight) (draws dirichlet attempts fuel))).
Proof.
  revert results attempts. induction fuel as [| fuel IH]; intros results attempts Ha Hr.
  - cbn. by rewrite take_nil, app_nil_r.
  - cbn [markowitz_loop draws seq fmap list_fmap List.filter].
    fold (draws dirichlet (S attempts) fuel).
    destruct (decide (length results < num_portfolios)%nat) as [Hlt | Hge].
    + rewrite bool_decide_eq_true_2 by done.
      rewrite (bool_decide_eq_true_2 (attempts < num_portfolios * 10)%nat) by lia.
      cbn [andb]. destruct (within_bounds min_weight max_weight (dirichlet attempts)).
      * rewrite IH; [| lia | rewrite length_app; cbn; lia].
        rewrite length_app. cbn [length].
        replace (num_portfolios - length results)%nat
          with (S (num_portfolios - (length results + 1)))%nat by lia.
        cbn [take fmap list_fmap]. by rewrite <- app_assoc.
      * rewrite IH by lia. done.
    + rewrite bool_decide_eq_false_2 by done. cbn [andb].
      replace (num_portfolios - length results)%nat with 0%nat by lia.
      by rewrite take_0, app_nil_r.
Qed.

(** A loop with fuel to spare stops where the bounded one does. *)
Lemma markowitz_loop_fuel (extra : nat) (fuel : nat) (results : list Portfolio)
    (attempts : nat) :
  (attempts + fuel = num_portfolios * 10)%nat ->
  loop (fuel + extra) results attempts = loop fuel results attempts.
Proof.
  revert results attempts. induction fuel as [| fuel IH]; intros results attempts Ha.
  - cbn [Nat.add markowitz_loop]. destruct extra as [| extra]; [done |].
    cbn [markowitz_loop].
    rewrite (bool_decide_eq_false_2 (attempts < num_portfolios * 10)%nat) by lia.
    by rewrite andb_false_r.
  - cbn [Nat.add markowitz_loop].
    destruct (_ && _); [| done]. apply IH. lia.
Qed.

Lemma markowitz_random_portfolios_spec :
  portfolios
  = row_of <$> take num_portfolios
      (List.filter (within_bounds min_weight max_weight) (draws dirichlet 0 (num_portfolios * 10))).
Proof.
  unfold markowitz_random_portfolios.
  rewrite markowitz_loop_spec by (cbn; lia).
  cbn [app length]. by rewrite Nat.sub_0_r.
Qed.

(** X18: [markowitz_random_portfolios] returns the rows of the first
    [num_portfolios] draws that satisfy the weight bounds among the
    first [10 * num_portfolios] draws, in the order drawn: never more
    than [num_portfolios] rows, none at all when no draw is within
    bounds, and the loop stops by itself after [10 * num_portfolios]
    passes. *)
Theorem markowitz_first_accepted_draws :
  portfolios
  = row_of <$> take num_portfolios
      (List.filter (within_bounds min_weight max_weight)
                   (draws dirichlet 0 (num_portfolios * 10))) /\
  (length portfolios <= num_portfolios)%nat /\
  (forall extra, loop (num_portfolios * 10 + extra) [] 0
                 = portfolios) /\
  (Forall (fun w => accepted w = false)
          (draws dirichlet 0 (num_portfolios * 10)) ->
   portfolios = []).
Proof.
  split_and!.
  - exact markowitz_random_portfolios_spec.
  - rewrite markowitz_random_portfolios_spec, length_fmap, length_take. lia.
  - intros extra. by apply markowitz_loop_fuel.
  - intros Hnone. rewrite markowitz_random_portfolios_spec.
    replace (List.filter (within_bounds min_weight max_weight) (draws dirichlet 0 (num_portfolios * 10)))
      with (@nil (list float)); [by rewrite take_nil |].
    symmetry. induction Hnone as [| w l Hw _ IH]; [done |].
    cbn [List.filter]. by rewrite Hw.
Qed.

(** X19: every weight in a row of [markowitz_random_portfolios] lies
    between [min_weight] and [max_weight], and the row is the one built
    from one of the first [10 * num_portfolios] draws. *)
Theorem markowitz_weights_within_bounds (row : Portfolio) (k : string) (x : float) :
  row ∈ markowitz_random_portfolios dirichlet expected_return variance tickers
          num_portfolios rf min_weight max_weight ->
  Weights row !! k = Some x ->
  (min_weight <=? x)%float = true /\ (x <=? max_weight)%float = true /\
  exists i, (i < num_portfolios * 10)%nat /\ row = row_of (dirichlet i) /\
            x ∈ dirichlet i.
Proof.
  intros Hrow Hk.
  rewrite markowitz_random_portfolios_spec in Hrow.
  apply list_elem_of_fmap in Hrow as (w & -> & Hw).
  apply subseteq_take, list_elem_of_In, filter_In in Hw as [Hw Hb].
  apply list_elem_of_In, list_elem_of_fmap in Hw as (i & -> & Hi).
  apply elem_of_seq in Hi.
  cbn [Weights portfolio_row] in Hk. unfold dict_zip in Hk.
  apply elem_of_list_to_map_2, elem_of_reverse, elem_of_zip_r in Hk.
  unfold within_bounds in Hb. apply andb_true_iff in Hb as [Hlo Hhi].
  rewrite forallb_forall in Hlo, Hhi.
  apply list_elem_of_In in Hk as Hin.
  split_and!; [by apply Hlo | by apply Hhi |].
  exists i. split_and!; [lia | done | done].
Qed.

End MarkowitzProperties.

Lemma markowitz_weights_within_bounds_witness :
  (0.2 <=? 0.5)%float = true /\ (0.5 <=? 0.8)%float = true.
Proof.
  destruct (markowitz_weights_within_bounds
              alternating_draws flat_return flat_variance ["AAA"; "BBB"]%string
              2 0%float 0.2%float 0.8%float
              (portfolio_row flat_return flat_variance ["AAA"; "BBB"]%string
                             0%float [0.5; 0.5]%float)
              "AAA" 0.5%float)
    as (Hlo & Hhi & _).
  - vm_compute. apply list_elem_of_here.
  - vm_compute. reflexivity.
  - split; [exact Hlo | exact Hhi].
Defined.
